(** * Menu_Optimization.py: the menu selection optimizer

    A shallow embedding of [src/Menu_Optimization.py]: the optimizer
    [optimize_menu], the loading and pricing helpers
    [load_and_preprocess_data] and [calculate_selling_price], the
    statistics panel and [main], together with the properties of what they
    return.

    Modelling choices.
    - A data frame is the list of its rows, in row order.
    - Prices are exact rationals ([Q]); every bound proved here is exact,
      hence also holds within any tolerance.
    - A [MenuCategory] cell is a string or the missing value [NaN] that
      pandas puts in an empty cell.
    - A Python dict is a [gmap]; a failed subscript raises [KeyError].
    - The modelling layer (pulp) is embedded as data: affine expressions,
      constraints and problems.  A product [variable * 0] is the empty
      expression, as in pulp; the terms of one variable are kept apart
      (pulp merges them, which leaves every value unchanged).
    - pulp tells variables apart by identity; here a variable is its
      name, ["item_" ++ MenuItem].  pulp also rewrites the characters
      [-+[] ->/] of a name to [_]: two dishes of one restaurant whose
      names collide after that rewriting make [prob.solve()] raise
      [PulpSolverError].  Such tables are outside this model.
    - [prob.solve()] gives a constant objective a dummy variable and
      leaves it there, without a value: [pulp.value(prob.objective)] is
      then [None] ([pulp.objective_value]).
    - The integer solver behind [prob.solve()] is not part of the
      repository: it is a parameter, and the one effect of the program is
      the call that submits a problem to it.  The contract of the solver
      has two halves: [pulp.exact], a reported [Optimal] status comes with
      an optimum of the 0/1 program, and [pulp.decisive], a program that
      has a point is reported [Optimal].  Nothing is assumed of the values
      left after another status; [optimize_menu] reads them all the same.
      [exhaustive.solve] is a solver that meets both halves and leaves no
      value after [Infeasible]; [leaving] meets both halves and leaves
      given values there. *)

From Stdlib Require Import QArith Lqa.
From stdpp Require Import gmap strings list fin_maps.

Local Open Scope string_scope.

(** ** The item table *)

(** A [MenuCategory] cell. *)
Inductive category : Type :=
| Label (s : string)
| NaN.

#[global] Instance category_eq_dec : EqDecision category.
Proof. solve_decision. Defined.

(** Python's [==] on two category cells: [nan == nan] is [False]. *)
Definition py_eq (a b : category) : bool :=
  match a, b with
  | Label s, Label t => bool_decide (s = t)
  | _, _ => false
  end.

Record MenuRow : Type := mkRow {
  RestaurantID : string;
  MenuItem : string;
  MenuCategory : category;
  Price : Q;
  Profitability : string;
  SellingPrice : Q
}.

(** The dicts appended to [selected_items]. *)
Record SelectedItem : Type := mkSelected {
  sel_MenuItem : string;
  sel_Category : category;
  sel_Price : Q;
  sel_Profitability : string;
  sel_SellingPrice : Q
}.

(** ** The modelling layer *)

Module pulp.

(** A variable is identified by its name; every variable this program
    creates has [cat='Binary']. *)
Definition LpVariable : Type := string.

(** [sum of coefficient * variable]; the constant term is always 0 here. *)
Definition LpAffineExpression : Type := list (LpVariable * Q).

Inductive LpSense : Type :=
| LpConstraintLE
| LpConstraintGE.

Record LpConstraint : Type := mkConstraint {
  c_expr : LpAffineExpression;
  c_sense : LpSense;
  c_rhs : Q
}.

(** A maximisation problem ([pulp.LpMaximize]). *)
Record LpProblem : Type := mkProblem {
  p_name : string;
  p_objective : LpAffineExpression;
  p_constraints : list LpConstraint
}.

Inductive LpStatus : Type :=
| LpStatusNotSolved
| LpStatusOptimal
| LpStatusInfeasible
| LpStatusUnbounded
| LpStatusUndefined.

(** What a solve leaves behind: the status and the variables' values. *)
Definition LpSolution : Type := LpStatus * gmap string Q.

(** [LpVariable.dicts(name, indices, cat='Binary')] *)
Definition LpVariable_dicts (name : string) (indices : list string)
  : gmap string LpVariable :=
  list_to_map (map (fun i => (i, name ++ "_" ++ i)) indices).

(** [variable * coefficient]: the empty expression when the coefficient
    is 0 (the test [other != 0] of pulp's multiplication). *)
Definition LpVariable_mul (v : LpVariable) (coefficient : Q) : LpAffineExpression :=
  if Qeq_bool coefficient 0 then [] else [(v, coefficient)].

(** [pulp.lpSum(vector)] *)
Definition lpSum (vector : list LpAffineExpression) : LpAffineExpression :=
  concat vector.

(** [pulp.value(e)]: [None] as soon as a variable has no value. *)
Fixpoint value (vals : gmap string Q) (e : LpAffineExpression) : option Q :=
  match e with
  | [] => Some 0%Q
  | (v, c) :: e' =>
      match vals !! v, value vals e' with
      | Some x, Some s => Some (x * c + s)%Q
      | _, _ => None
      end
  end.

(** [pulp.value(prob.objective)] after [prob.solve()]: an objective
    without terms has been given the dummy variable, which has no value. *)
Definition objective_value (vals : gmap string Q) (e : LpAffineExpression) : option Q :=
  match e with
  | [] => None
  | _ => value vals e
  end.

(** [pulp.value(v) == 1] for a variable [v]. *)
Definition value_is_one (vals : gmap string Q) (v : LpVariable) : bool :=
  match vals !! v with
  | Some x => Qeq_bool x 1
  | None => false
  end.

Definition expr_vars (e : LpAffineExpression) : list LpVariable := map fst e.

Definition variables (p : LpProblem) : list LpVariable :=
  expr_vars (p_objective p)
    ++ flat_map (fun c => expr_vars (c_expr c)) (p_constraints p).

Definition sense_holds (s : LpSense) (lhs rhs : Q) : Prop :=
  match s with
  | LpConstraintLE => (lhs <= rhs)%Q
  | LpConstraintGE => (rhs <= lhs)%Q
  end.

Definition holds (vals : gmap string Q) (c : LpConstraint) : Prop :=
  exists lhs, value vals (c_expr c) = Some lhs /\ sense_holds (c_sense c) lhs (c_rhs c).

Definition is_binary (vals : gmap string Q) (v : LpVariable) : Prop :=
  exists x, vals !! v = Some x /\ (x == 0 \/ x == 1)%Q.

(** A point of the integer program. *)
Definition feasible (p : LpProblem) (vals : gmap string Q) : Prop :=
  Forall (is_binary vals) (variables p) /\ Forall (holds vals) (p_constraints p).

Definition optimal (p : LpProblem) (vals : gmap string Q) : Prop :=
  feasible p vals /\
  forall vals' q q',
    feasible p vals' ->
    value vals (p_objective p) = Some q ->
    value vals' (p_objective p) = Some q' ->
    (q' <= q)%Q.

(** The contract of an exact solver: when it reports [Optimal], the
    values it leaves are an optimum of the integer program. *)
Definition exact (solve : LpProblem -> LpSolution) : Prop :=
  forall p, (solve p).1 = LpStatusOptimal -> optimal p (solve p).2.

(** The other half of the contract: a program that has a point is
    reported [Optimal]. *)
Definition decisive (solve : LpProblem -> LpSolution) : Prop :=
  forall p, (exists vals, feasible p vals) -> (solve p).1 = LpStatusOptimal.

End pulp.

Import pulp.

(** ** Programs: return, raise, or submit a problem to the solver *)

Inductive exn : Type :=
| KeyError (key : string)
| ValueError.

Inductive prog (A : Type) : Type :=
| Ret (a : A)
| Raise (e : exn)
| Solve (p : LpProblem) (k : LpSolution -> prog A).

Arguments Ret {A} a.
Arguments Raise {A} e.
Arguments Solve {A} p k.

Fixpoint bind {A B : Type} (m : prog A) (f : A -> prog B) : prog B :=
  match m with
  | Ret a => f a
  | Raise e => Raise e
  | Solve p k => Solve p (fun s => bind (k s) f)
  end.

Notation "x <- m ;; f" := (bind m (fun x => f))
  (at level 100, m at next level, right associativity).

(** [d[key]] *)
Definition getitem {V : Type} (d : gmap string V) (key : string) : prog V :=
  match d !! key with
  | Some v => Ret v
  | None => Raise (KeyError key)
  end.

(** A list comprehension whose element expression may raise. *)
Fixpoint comprehension {A B : Type} (f : A -> prog B) (l : list A) : prog (list B) :=
  match l with
  | [] => Ret []
  | a :: l' => b <- f a ;; bs <- comprehension f l' ;; Ret (b :: bs)
  end.

Inductive outcome (A : Type) : Type :=
| Returned (a : A)
| Raised (e : exn).

Arguments Returned {A} a.
Arguments Raised {A} e.

(** Run a program against a solver. *)
Fixpoint run {A : Type} (solve : LpProblem -> LpSolution) (m : prog A) : outcome A :=
  match m with
  | Ret a => Returned a
  | Raise e => Raised e
  | Solve p k => run solve (k (solve p))
  end.

(** The problems a program submits to the solver, in order. *)
Fixpoint submitted {A : Type} (solve : LpProblem -> LpSolution) (m : prog A)
  : list LpProblem :=
  match m with
  | Solve p k => p :: submitted solve (k (solve p))
  | _ => []
  end.

(** ** The source functions *)

Definition profit_weights : gmap string Q :=
  {[ "Low" := 2%Q; "Medium" := 3%Q; "High" := 4%Q ]}.

(** [df['SellingPrice'] = df.apply(lambda x: x['Price'] * profit_weights[x['Profitability']], axis=1)].
    On a table without rows [apply] gives back a table, not a column, and
    the assignment raises [ValueError]. *)
Definition selling_price_column (df : list MenuRow) : prog (list MenuRow) :=
  comprehension
    (fun x =>
       w <- getitem profit_weights (Profitability x) ;;
       Ret (mkRow (RestaurantID x) (MenuItem x) (MenuCategory x) (Price x)
                  (Profitability x) (Price x * w)%Q))
    df.

Definition calculate_selling_price (df : list MenuRow) : prog (list MenuRow) :=
  match df with
  | [] => Raise ValueError
  | _ => selling_price_column df
  end.

(** [Series.unique()]: the distinct values in order of first appearance;
    all missing values count as one. *)
Fixpoint unique (l : list category) : list category :=
  match l with
  | [] => []
  | c :: l' => c :: filter (fun d => d <> c) (unique l')
  end.

(** [min_items_per_category = 1], the first statement of [optimize_menu]
    ("Fixed minimum items per category"). *)
Definition min_items_per_category : Z := 1.

Definition selected_item (row : MenuRow) : SelectedItem :=
  mkSelected (MenuItem row) (MenuCategory row) (Price row) (Profitability row)
             (SellingPrice row).

(** The loop that reads the solved values back:
    [if pulp.value(menu_vars[row.MenuItem]) == 1: selected_items.append({...})] *)
Fixpoint extract_selected (menu_vars : gmap string LpVariable) (vals : gmap string Q)
    (rows : list MenuRow) : prog (list SelectedItem) :=
  match rows with
  | [] => Ret []
  | row :: rest =>
      v <- getitem menu_vars (MenuItem row) ;;
      later <- extract_selected menu_vars vals rest ;;
      Ret (if value_is_one vals v then selected_item row :: later else later)
  end.

(** [f"Menu_Optimization_{restaurant_id}"] *)
Definition problem_name (restaurant_id : string) : string :=
  "Menu_Optimization_" ++ restaurant_id.

(** [optimize_menu(df, restaurant_id, max_budget)]: filter the rows of the
    restaurant, create one binary variable per [MenuItem], set the
    objective (total selling price), add the budget constraint and one
    constraint per category, solve, and read the selected rows back.  The
    result is the pair [(selected_items, pulp.value(prob.objective))]. *)
Definition optimize_menu (df : list MenuRow) (restaurant_id : string) (max_budget : Q)
  : prog (list SelectedItem * option Q) :=
  let restaurant_df := filter (fun row => RestaurantID row = restaurant_id) df in
  let menu_vars := LpVariable_dicts "item" (map MenuItem restaurant_df) in
  objective <-
    comprehension
      (fun row => v <- getitem menu_vars (MenuItem row) ;;
                  Ret (LpVariable_mul v (SellingPrice row)))
      restaurant_df ;;
  let objective := lpSum objective in
  budget <-
    comprehension
      (fun row => v <- getitem menu_vars (MenuItem row) ;;
                  Ret (LpVariable_mul v (Price row)))
      restaurant_df ;;
  let budget := lpSum budget in
  per_category <-
    comprehension
      (fun category =>
         e <- comprehension
                (fun row => v <- getitem menu_vars (MenuItem row) ;; Ret (v, 1%Q))
                (filter (fun row => py_eq (MenuCategory row) category = true)
                        restaurant_df) ;;
         Ret (mkConstraint e LpConstraintGE (inject_Z min_items_per_category)))
      (unique (map MenuCategory restaurant_df)) ;;
  let prob :=
    mkProblem (problem_name restaurant_id) objective
              (mkConstraint budget LpConstraintLE max_budget :: per_category) in
  Solve prob (fun solution =>
    selected_items <- extract_selected menu_vars solution.2 restaurant_df ;;
    Ret (selected_items, objective_value solution.2 objective)).

(** ** The model that [optimize_menu] builds, in closed form *)

(** The variable that [menu_vars] holds for an item. *)
Definition menu_var (item : string) : LpVariable := "item" ++ "_" ++ item.

(** [lpSum] of the products [variable * coef row]. *)
Definition terms (coef : MenuRow -> Q) (rows : list MenuRow) : LpAffineExpression :=
  lpSum (map (fun row => LpVariable_mul (menu_var (MenuItem row)) (coef row)) rows).

(** [lpSum] of the variables themselves. *)
Definition unit_terms (rows : list MenuRow) : LpAffineExpression :=
  map (fun row => (menu_var (MenuItem row), 1%Q)) rows.

Definition in_category (c : category) (rows : list MenuRow) : list MenuRow :=
  filter (fun row => py_eq (MenuCategory row) c = true) rows.

Definition category_constraint (rows : list MenuRow) (c : category) : LpConstraint :=
  mkConstraint (unit_terms (in_category c rows)) LpConstraintGE
               (inject_Z min_items_per_category).

Definition budget_constraint (rows : list MenuRow) (max_budget : Q) : LpConstraint :=
  mkConstraint (terms Price rows) LpConstraintLE max_budget.

Definition restaurant_rows (df : list MenuRow) (restaurant_id : string) : list MenuRow :=
  filter (fun row => RestaurantID row = restaurant_id) df.

Definition menu_problem (restaurant_id : string) (rows : list MenuRow) (max_budget : Q)
  : LpProblem :=
  mkProblem (problem_name restaurant_id) (terms SellingPrice rows)
            (budget_constraint rows max_budget
               :: map (category_constraint rows) (unique (map MenuCategory rows))).

(** The rows whose variable reads back as 1. *)
Definition chosen (vals : gmap string Q) (rows : list MenuRow) : list MenuRow :=
  filter (fun row => value_is_one vals (menu_var (MenuItem row)) = true) rows.

Definition sum_by {A : Type} (f : A -> Q) (l : list A) : Q :=
  foldr (fun a s => (f a + s)%Q) 0%Q l.

(** ** A reference solver: exhaustive enumeration of the 0/1 points *)

Module exhaustive.

(** All 0/1 assignments of the given variables. *)
Fixpoint assignments (vs : list LpVariable) : list (gmap string Q) :=
  match vs with
  | [] => [∅]
  | v :: vs' =>
      flat_map (fun a => [<[v:=0%Q]> a; <[v:=1%Q]> a]) (assignments vs')
  end.

Definition sense_holdsb (s : LpSense) (lhs rhs : Q) : bool :=
  match s with
  | LpConstraintLE => Qle_bool lhs rhs
  | LpConstraintGE => Qle_bool rhs lhs
  end.

Definition holdsb (vals : gmap string Q) (c : LpConstraint) : bool :=
  match value vals (c_expr c) with
  | Some lhs => sense_holdsb (c_sense c) lhs (c_rhs c)
  | None => false
  end.

Definition feasibleb (p : LpProblem) (vals : gmap string Q) : bool :=
  forallb (holdsb vals) (p_constraints p).

Definition objective_of (p : LpProblem) (vals : gmap string Q) : Q :=
  default 0%Q (value vals (p_objective p)).

(** The last best candidate of a list, if any. *)
Fixpoint best (p : LpProblem) (cands : list (gmap string Q)) : option (gmap string Q) :=
  match cands with
  | [] => None
  | a :: rest =>
      match best p rest with
      | Some b => if Qle_bool (objective_of p a) (objective_of p b) then Some b else Some a
      | None => Some a
      end
  end.

Definition solve (p : LpProblem) : LpSolution :=
  match best p (filter (fun a => feasibleb p a = true)
                       (assignments (remove_dups (variables p)))) with
  | Some a => (LpStatusOptimal, a)
  | None => (LpStatusInfeasible, ∅)
  end.

End exhaustive.

(** ** Notions used in the statements *)

Definition rows_binary (vals : gmap string Q) (rows : list MenuRow) : Prop :=
  forall row, row ∈ rows -> is_binary vals (menu_var (MenuItem row)).

(** Two points that give every listed variable the same number. *)
Definition agree (vs : list LpVariable) (m1 m2 : gmap string Q) : Prop :=
  forall v, v ∈ vs ->
    exists x y, m1 !! v = Some x /\ m2 !! v = Some y /\ (x == y)%Q.

(** The point that gives 1 to the items of [sub] and 0 to the others. *)
Definition indicator (rows sub : list MenuRow) : gmap string Q :=
  list_to_map
    (map (fun row =>
            (menu_var (MenuItem row),
             if bool_decide (MenuItem row ∈ map MenuItem sub) then 1%Q else 0%Q))
         rows).

(** The rows of a selection that bear a category. *)
Definition bearing (c : category) (rows : list MenuRow) : list MenuRow :=
  filter (fun row => MenuCategory row = c) rows.

(** The statuses that [prob.solve()] reports during a run. *)
Definition statuses {A : Type} (solve : LpProblem -> LpSolution) (m : prog A)
  : list LpStatus :=
  map (fun p => (solve p).1) (submitted solve m).

(** The solve of a call reports [Optimal].  [optimize_menu] itself never
    reads the status: after another status it returns what the solver left
    in the variables. *)
Definition feasible_result (solve : LpProblem -> LpSolution)
    (df : list MenuRow) (restaurant_id : string) (max_budget : Q) : Prop :=
  statuses solve (optimize_menu df restaurant_id max_budget) = [LpStatusOptimal].

(** The number of selected items that bear a category. *)
Definition count_category (c : category) (items : list SelectedItem) : nat :=
  length (filter (fun item => sel_Category item = c) items).

(** The spec's two constraints, read on a set of rows. *)
Definition within_budget (max_budget : Q) (sub : list MenuRow) : Prop :=
  (sum_by Price sub <= max_budget)%Q.

Definition covers_categories (rows sub : list MenuRow) : Prop :=
  forall c, c ∈ map MenuCategory rows ->
            (min_items_per_category <= Z.of_nat (length (bearing c sub)))%Z.

(** Some dish of the rows has a selling price other than 0: the
    objective of the problem has a term. *)
Definition has_selling_price (rows : list MenuRow) : Prop :=
  Exists (fun row => ~ (SellingPrice row == 0)%Q) rows.

(** A small table: three dishes of restaurant R1 and one of R2. *)
Definition sample_menu : list MenuRow :=
  [ mkRow "R1" "Bruschetta" (Label "Appetizer") 10 "High" 40;
    mkRow "R2" "Pho" (Label "Soup") 8 "Medium" 24;
    mkRow "R1" "Olives" (Label "Appetizer") 5 "Low" 10;
    mkRow "R1" "Risotto" (Label "Entree") 20 "Medium" 60 ].

(** A solver that leaves every variable at one half. *)
Definition half_solver (p : LpProblem) : LpSolution :=
  (LpStatusOptimal, list_to_map (map (fun v => (v, 1 # 2)) (variables p))).

(** A one-dish table whose category cell is empty, and the same table
    with a blank string in that cell. *)
Definition unlabelled_menu : list MenuRow :=
  [ mkRow "R1" "Soup" NaN 5 "Low" 10 ].

Definition blank_menu : list MenuRow :=
  [ mkRow "R1" "Soup" (Label "") 5 "Low" 10 ].

(** The two-dish table of the documented scenarios, before and after
    [calculate_selling_price]. *)
Definition scenario_raw : list MenuRow :=
  [ mkRow "R" "1" (Label "Appetizer") 10 "High" 0;
    mkRow "R" "2" (Label "Entree") 20 "Medium" 0 ].

Definition scenario_items : list MenuRow :=
  [ mkRow "R" "1" (Label "Appetizer") 10 "High" 40;
    mkRow "R" "2" (Label "Entree") 20 "Medium" 60 ].

(** Closing a goal between ground terms by evaluation. *)
Ltac evaluate := vm_compute; reflexivity.

From stdpp Require Import sorting.

Local Open Scope string_scope.

(** ** Loading the sheet *)

(** The two cells that [drop_duplicates] compares. *)
Definition row_key (row : MenuRow) : string * string :=
  (RestaurantID row, MenuItem row).

(** [data.drop_duplicates(subset=['RestaurantID', 'MenuItem'])]: going
    down the table, a row is dropped when its two cells were seen in an
    earlier row (the default [keep='first']). *)
Fixpoint drop_duplicates_from (seen : gset (string * string)) (data : list MenuRow)
  : list MenuRow :=
  match data with
  | [] => []
  | row :: rest =>
      if decide (row_key row ∈ seen) then drop_duplicates_from seen rest
      else row :: drop_duplicates_from ({[row_key row]} ∪ seen) rest
  end.

Definition drop_duplicates (data : list MenuRow) : list MenuRow :=
  drop_duplicates_from ∅ data.

(** [load_and_preprocess_data()].  The file system is a parameter:
    [read_excel path] is the table that the sheet at [path] holds. *)
Definition load_and_preprocess_data (read_excel : string -> list MenuRow)
  : list MenuRow :=
  let data := read_excel "R:/OR/data/maindata.xlsx" in
  let data := drop_duplicates data in
  data.

(** The three tiers of [profit_weights]. *)
Definition known_tier (row : MenuRow) : Prop :=
  is_Some (profit_weights !! Profitability row).

(** A sheet with a repeated dish, a dish name shared by two restaurants,
    and no selling prices yet. *)
Definition sample_sheet : list MenuRow :=
  [ mkRow "R1" "Bruschetta" (Label "Appetizer") 10 "High" 0;
    mkRow "R2" "Bruschetta" (Label "Starter") 9 "Low" 0;
    mkRow "R1" "Risotto" (Label "Entree") 20 "Medium" 0;
    mkRow "R1" "Bruschetta" (Label "Appetizer") 12 "Low" 0;
    mkRow "R1" "Olives" (Label "Appetizer") 5 "Low" 0 ].

Definition sample_disk (path : string) : list MenuRow :=
  if decide (path = "R:/OR/data/maindata.xlsx") then sample_sheet else [].

(** A row with its selling price derived anew from its price and tier. *)
Definition reprice (x : MenuRow) : MenuRow :=
  mkRow (RestaurantID x) (MenuItem x) (MenuCategory x) (Price x) (Profitability x)
        (Price x * default 0%Q (profit_weights !! Profitability x))%Q.

(** Two rows that differ at most in their [SellingPrice] cell. *)
Definition same_but_selling_price (x y : MenuRow) : Prop :=
  RestaurantID y = RestaurantID x /\ MenuItem y = MenuItem x /\
  MenuCategory y = MenuCategory x /\ Price y = Price x /\
  Profitability y = Profitability x.

(** The selling price that the tier of [x] gives. *)
Definition priced_by_tier (x y : MenuRow) : Prop :=
  (Profitability x = "Low" /\ SellingPrice y = (Price x * 2)%Q)
  \/ (Profitability x = "Medium" /\ SellingPrice y = (Price x * 3)%Q)
  \/ (Profitability x = "High" /\ SellingPrice y = (Price x * 4)%Q).

(** A priced table in which restaurant R1 lists Bruschetta twice. *)
Definition repeated_menu : list MenuRow :=
  [ mkRow "R1" "Bruschetta" (Label "Appetizer") 10 "High" 40;
    mkRow "R1" "Risotto" (Label "Entree") 20 "Medium" 60;
    mkRow "R1" "Bruschetta" (Label "Appetizer") 12 "Low" 24 ].

(** ** The dashboard *)

(** What Streamlit is asked to draw, one element per call, in call order.
    A [with colN:] block only places its element and is not recorded.  A
    dollar amount stands for the text [f"${x:.2f}"] of the number [x]. *)
Inductive amount : Type :=
| Dollars (x : Q)
| DollarsNaN.

Inductive element : Type :=
| st_title (body : string)
| st_subheader (body : string)
| st_sidebar_header (body : string)
| st_sidebar_selectbox (label : string) (options shown : list string)
| st_sidebar_slider (label : string) (min_value max_value value step : Z)
| st_columns (spec : nat)
| st_metric (label : string) (value : nat)
| st_metric_dollars (label : string) (value : amount)
| st_dataframe (data : list MenuRow)
| st_dataframe_items (data : list SelectedItem)
| st_button (label : string)
| st_bar_chart (data : gmap string nat)
| st_error (body : string).

(** [Series.mean()]: [nan] for a column without rows. *)
Definition mean (column : list Q) : amount :=
  match column with
  | [] => DollarsNaN
  | _ => Dollars (sum_by id column / inject_Z (Z.of_nat (length column)))
  end.

(** [display_restaurant_stats(df, restaurant_id)] *)
Definition display_restaurant_stats (df : list MenuRow) (restaurant_id : string)
  : list element :=
  let restaurant_df := filter (fun row => RestaurantID row = restaurant_id) df in
  [ st_subheader "Restaurant Statistics";
    st_columns 4;
    st_metric "Total Menu Items" (length restaurant_df);
    st_metric_dollars "Average Price" (mean (map Price restaurant_df));
    st_metric "Menu Categories" (length (unique (map MenuCategory restaurant_df))) ].

(** [Series.unique()] on the [RestaurantID] column. *)
Fixpoint unique_ids (l : list string) : list string :=
  match l with
  | [] => []
  | x :: l' => x :: filter (fun y => y <> x) (unique_ids l')
  end.

(** The order of Python's [sorted] on strings. *)
Definition string_le (a b : string) : Prop := String.leb a b = true.

#[global] Instance string_le_dec : RelDecision string_le.
Proof. intros a b. unfold string_le. apply _. Defined.

Definition sorted (l : list string) : list string := merge_sort string_le l.

(** [Series.value_counts()]: how many times each value occurs; missing
    values are left out. *)
Definition value_counts (column : list string) : gmap string nat :=
  foldr (fun x counts => <[x := S (default 0%nat (counts !! x))]> counts) ∅ column.

Definition category_label (item : SelectedItem) : option string :=
  match sel_Category item with
  | Label s => Some s
  | NaN => None
  end.

(** Formatting [None] with [:.2f]. *)
Inductive format_error : Type :=
| TypeError.

(** [main()], run once.  The three last arguments are what the widgets
    return on this run: the option picked in the select box (with no
    option at all Streamlit returns [None], which reads as the text
    ["None"] in the two f-strings and matches no row), the slider value and
    whether the button was clicked.  The result is the screen drawn when
    the run completes; what is already drawn when an exception escapes is
    not recorded. *)
Definition main (read_excel : string -> list MenuRow)
    (selectbox : string) (slider : Z) (button : bool)
  : prog (format_error + list element) :=
  let df := load_and_preprocess_data read_excel in
  df <- calculate_selling_price df ;;
  let options := sorted (unique_ids (map RestaurantID df)) in
  let restaurant_id := selectbox in
  let max_budget := slider in
  let restaurant_df := filter (fun row => RestaurantID row = restaurant_id) df in
  let screen :=
    ([ st_title "Restaurant-Specific Menu Optimization";
       st_sidebar_header "Restaurant Selection";
       st_sidebar_selectbox "Select Restaurant" options
                            (map (fun x => "Restaurant " +:+ x) options);
       st_sidebar_header "Budget Parameter";
       st_sidebar_slider "Maximum Budget ($)" 50 300 200 10 ]
       ++ display_restaurant_stats df restaurant_id
       ++ [ st_subheader ("Current Menu Items for " +:+ restaurant_id);
            st_dataframe restaurant_df;
            st_button "Optimize Menu" ])%list in
  if button then
    result <- optimize_menu df restaurant_id (inject_Z max_budget) ;;
    let selected_items := result.1 in
    let total_profit := result.2 in
    let screen := (screen ++ [st_subheader "Optimized Menu Selection"])%list in
    match selected_items with
    | _ :: _ =>
        let total_cost := sum_by sel_Price selected_items in
        match total_profit with
        | Some profit =>
            Ret (inr (screen ++
              [ st_dataframe_items selected_items;
                st_columns 3;
                st_metric "Selected Items" (length selected_items);
                st_metric_dollars "Total Cost" (Dollars total_cost);
                st_metric_dollars "Expected Profit" (Dollars profit);
                st_subheader "Optimized Category Distribution";
                st_bar_chart (value_counts (omap category_label selected_items));
                st_subheader "Profitability Distribution";
                st_bar_chart (value_counts (map sel_Profitability selected_items)) ])%list)
        | None => Ret (inl TypeError)
        end
    | [] =>
        Ret (inr (screen ++
          [st_error "No feasible solution found with the given constraints!"])%list)
    end
  else Ret (inr screen).

(** A disk whose sheet has a tier outside [profit_weights]. *)
Definition premium_disk (path : string) : list MenuRow :=
  [ mkRow "R1" "Bruschetta" (Label "Appetizer") 10 "High" 0;
    mkRow "R1" "Truffle" (Label "Entree") 90 "Premium" 0 ].

(** ** Tables and solvers for the runs below *)

(** A priced table that lists Bruschetta twice, at two prices. *)
Definition relisted_menu : list MenuRow :=
  [ mkRow "R1" "Bruschetta" (Label "Appetizer") 10 "High" 40;
    mkRow "R1" "Bruschetta" (Label "Appetizer") 12 "Low" 24;
    mkRow "R1" "Olives" (Label "Appetizer") 5 "Low" 10 ].

(** A restaurant whose only dish is free, as a priced table and as the
    sheet it is loaded from. *)
Definition water_menu : list MenuRow :=
  [ mkRow "R1" "Water" (Label "Drink") 0 "Low" 0 ].


(** A solver that answers as [exhaustive.solve] where the program has a
    point; elsewhere it reports [Infeasible] and leaves the given values
    in the variables. *)
Definition leaving (leftover : gmap string Q) (p : LpProblem) : LpSolution :=
  match exhaustive.solve p with
  | (LpStatusOptimal, vals) => (LpStatusOptimal, vals)
  | _ => (LpStatusInfeasible, leftover)
  end.

(** The values at which the budget constraint at -5 and the two category
    constraints of restaurant R1 of [sample_menu] are tight. *)
Definition overdrawn : gmap string Q :=
  {[ "item_Bruschetta" := (-6)%Q; "item_Olives" := 7%Q; "item_Risotto" := 1%Q ]}.

(** The documented table at budget 25: the Entree at 1 and what the
    budget leaves of the Appetizer. *)
Definition half_appetizer : gmap string Q :=
  {[ "item_1" := (1 # 2)%Q; "item_2" := 1%Q ]}.

(** ** The program runs to its closed form *)

Lemma LpVariable_dicts_lookup (name : string) (indices : list string) (i : string) :
  i ∈ indices -> LpVariable_dicts name indices !! i = Some (name ++ "_" ++ i).
Proof.
  unfold LpVariable_dicts.
  induction indices as [|j indices IH]; intros Hin.
  - by apply elem_of_nil in Hin.
  - simpl. destruct (decide (j = i)) as [->|Hne].
    + by rewrite lookup_insert_eq.
    + rewrite lookup_insert_ne by done. apply IH.
      apply elem_of_cons in Hin as [Heq|Hin]; [congruence|done].
Qed.

Lemma comprehension_pure {A B : Type} (f : A -> prog B) (g : A -> B) (l : list A) :
  (forall a, a ∈ l -> f a = Ret (g a)) -> comprehension f l = Ret (map g l).
Proof.
  induction l as [|a l IH]; intros Hf; simpl.
  - done.
  - rewrite (Hf a) by left. simpl. rewrite IH; [done|].
    intros b Hb. apply Hf. by right.
Qed.

Lemma getitem_menu_vars (keys : list MenuRow) (row : MenuRow) :
  row ∈ keys ->
  getitem (LpVariable_dicts "item" (map MenuItem keys)) (MenuItem row)
  = Ret (menu_var (MenuItem row)).
Proof.
  intros Hin. unfold getitem.
  rewrite LpVariable_dicts_lookup; [done|].
  apply list_elem_of_fmap. by exists row.
Qed.

Lemma products_terms (keys rows : list MenuRow) (coef : MenuRow -> Q) :
  rows ⊆ keys ->
  comprehension
    (fun row =>
       v <- getitem (LpVariable_dicts "item" (map MenuItem keys)) (MenuItem row) ;;
       Ret (LpVariable_mul v (coef row)))
    rows
  = Ret (map (fun row => LpVariable_mul (menu_var (MenuItem row)) (coef row)) rows).
Proof.
  intros Hsub. apply comprehension_pure.
  intros row Hrow. by rewrite getitem_menu_vars by auto.
Qed.

Lemma variables_unit_terms (keys rows : list MenuRow) :
  rows ⊆ keys ->
  comprehension
    (fun row =>
       v <- getitem (LpVariable_dicts "item" (map MenuItem keys)) (MenuItem row) ;;
       Ret (v, 1%Q))
    rows
  = Ret (unit_terms rows).
Proof.
  intros Hsub. apply comprehension_pure.
  intros row Hrow. by rewrite getitem_menu_vars by auto.
Qed.

Lemma in_category_subseteq (c : category) (rows : list MenuRow) :
  in_category c rows ⊆ rows.
Proof. intros row Hrow. by apply list_elem_of_filter in Hrow as [_ ?]. Qed.

Lemma extract_selected_chosen (keys rows : list MenuRow) (vals : gmap string Q) :
  rows ⊆ keys ->
  extract_selected (LpVariable_dicts "item" (map MenuItem keys)) vals rows
  = Ret (map selected_item (chosen vals rows)).
Proof.
  induction rows as [|row rows IH]; intros Hsub; simpl.
  - done.
  - rewrite getitem_menu_vars by (apply Hsub; left). simpl.
    rewrite IH by (intros r Hr; apply Hsub; by right). simpl.
    unfold chosen. rewrite filter_cons.
    destruct (value_is_one vals (menu_var (MenuItem row))) eqn:E.
    + by rewrite decide_True.
    + by rewrite decide_False.
Qed.

(** What a call does, for any solver: it submits exactly one problem,
    [menu_problem] of the restaurant's rows, and returns the rows whose
    variable reads back as 1 together with the value of the objective. *)
Lemma optimize_menu_unfold (df : list MenuRow) (restaurant_id : string) (max_budget : Q) :
  let rows := restaurant_rows df restaurant_id in
  let prob := menu_problem restaurant_id rows max_budget in
  exists k,
    optimize_menu df restaurant_id max_budget = Solve prob k /\
    forall solution,
      k solution = Ret (map selected_item (chosen solution.2 rows),
                        objective_value solution.2 (terms SellingPrice rows)).
Proof.
  intros rows prob. unfold optimize_menu.
  fold (restaurant_rows df restaurant_id). fold rows.
  rewrite !products_terms by done.
  rewrite (comprehension_pure _ (category_constraint rows)).
  - cbn [bind]. eexists. split; [reflexivity|].
    intros solution. cbn [bind].
    by rewrite extract_selected_chosen.
  - intros c _. rewrite variables_unit_terms by apply in_category_subseteq. done.
Qed.

Lemma optimize_menu_run (solve : LpProblem -> LpSolution)
    (df : list MenuRow) (restaurant_id : string) (max_budget : Q) :
  let rows := restaurant_rows df restaurant_id in
  let solution := solve (menu_problem restaurant_id rows max_budget) in
  run solve (optimize_menu df restaurant_id max_budget)
  = Returned (map selected_item (chosen solution.2 rows),
              objective_value solution.2 (terms SellingPrice rows)).
Proof.
  intros rows solution.
  destruct (optimize_menu_unfold df restaurant_id max_budget) as (k & -> & Hk).
  simpl. by rewrite Hk.
Qed.

Lemma optimize_menu_submitted (solve : LpProblem -> LpSolution)
    (df : list MenuRow) (restaurant_id : string) (max_budget : Q) :
  submitted solve (optimize_menu df restaurant_id max_budget)
  = [menu_problem restaurant_id (restaurant_rows df restaurant_id) max_budget].
Proof.
  destruct (optimize_menu_unfold df restaurant_id max_budget) as (k & -> & Hk).
  simpl. by rewrite Hk.
Qed.

(** ** Selling prices *)

Example calculate_selling_price_tiers :
  calculate_selling_price scenario_raw = Ret scenario_items.
Proof. evaluate. Qed.

Example calculate_selling_price_empty :
  calculate_selling_price [] = Raise ValueError.
Proof. reflexivity. Qed.

Lemma selling_price_column_unknown (df : list MenuRow) (x : MenuRow) :
  profit_weights !! Profitability x = None ->
  selling_price_column (x :: df) = Raise (KeyError (Profitability x)).
Proof.
  intros Hnone. unfold selling_price_column, getitem. simpl. by rewrite Hnone.
Qed.

Lemma calculate_selling_price_unknown (df : list MenuRow) (x : MenuRow) :
  profit_weights !! Profitability x = None ->
  calculate_selling_price (x :: df) = Raise (KeyError (Profitability x)).
Proof. apply selling_price_column_unknown. Qed.

(** ** Reading a 0/1 point back as a set of rows *)

Lemma rows_binary_cons (vals : gmap string Q) (row : MenuRow) (rows : list MenuRow) :
  rows_binary vals (row :: rows) ->
  is_binary vals (menu_var (MenuItem row)) /\ rows_binary vals rows.
Proof.
  intros H. split; [apply H; left|]. intros r Hr. apply H. by right.
Qed.

Lemma rows_binary_subseteq (vals : gmap string Q) (rows sub : list MenuRow) :
  sub ⊆ rows -> rows_binary vals rows -> rows_binary vals sub.
Proof. intros Hsub H row Hrow. apply H. by apply Hsub. Qed.

Lemma value_is_one_true (vals : gmap string Q) (v : LpVariable) :
  value_is_one vals v = true <-> exists x, vals !! v = Some x /\ (x == 1)%Q.
Proof.
  unfold value_is_one. split.
  - destruct (vals !! v) as [x|]; [|done].
    intros H. exists x. split; [done|]. by apply Qeq_bool_iff.
  - intros (x & -> & Hx). by apply Qeq_bool_iff.
Qed.

Lemma value_is_one_false_binary (vals : gmap string Q) (v : LpVariable) :
  is_binary vals v -> value_is_one vals v = false ->
  exists x, vals !! v = Some x /\ (x == 0)%Q.
Proof.
  intros (x & Hx & [H0|H1]) Hone; exists x; split; try done.
  assert (value_is_one vals v = true) by (apply value_is_one_true; eauto).
  congruence.
Qed.

(** On a 0/1 value, reading "equal to 1" and reading "at least 0.5"
    select the same variables. *)
Lemma value_is_one_threshold (vals : gmap string Q) (v : LpVariable) :
  is_binary vals v ->
  value_is_one vals v = true <-> exists x, vals !! v = Some x /\ (1 # 2 <= x)%Q.
Proof.
  intros (x & Hx & H01). rewrite value_is_one_true. split.
  - intros (y & Hy & Hy1). exists y. split; [done|]. rewrite Hy1. by vm_compute.
  - intros (y & Hy & Hhalf). exists y. split; [done|].
    rewrite Hx in Hy. injection Hy as <-.
    destruct H01 as [H0|H1]; [|done]. rewrite H0 in Hhalf. by vm_compute in Hhalf.
Qed.

Lemma sum_by_map {A B : Type} (f : B -> Q) (g : A -> B) (l : list A) :
  sum_by f (map g l) = sum_by (fun a => f (g a)) l.
Proof. induction l as [|a l IH]; simpl; [done|]. by rewrite IH. Qed.

Lemma sum_by_ones {A : Type} (l : list A) :
  (sum_by (fun _ => 1) l == inject_Z (Z.of_nat (length l)))%Q.
Proof.
  induction l as [|a l IH].
  - reflexivity.
  - cbn [sum_by foldr length]. fold (sum_by (fun _ : A => 1%Q) l).
    rewrite IH, Nat2Z.inj_succ. unfold Z.succ. rewrite inject_Z_plus. ring.
Qed.

Lemma terms_cons (coef : MenuRow -> Q) (row : MenuRow) (rows : list MenuRow) :
  terms coef (row :: rows)
  = (LpVariable_mul (menu_var (MenuItem row)) (coef row) ++ terms coef rows)%list.
Proof. reflexivity. Qed.

Lemma terms_in_rows (coef : MenuRow -> Q) (rows : list MenuRow) (v : LpVariable) :
  v ∈ expr_vars (terms coef rows) ->
  exists row, row ∈ rows /\ v = menu_var (MenuItem row).
Proof.
  unfold expr_vars. induction rows as [|row rows IH]; [by intros H%elem_of_nil|].
  rewrite terms_cons, map_app, elem_of_app. intros [H|H].
  - unfold LpVariable_mul in H. destruct (Qeq_bool (coef row) 0).
    + by apply elem_of_nil in H.
    + apply list_elem_of_singleton in H. exists row. split; [left|done].
  - destruct (IH H) as (r & Hr & ->). exists r. split; [by right|done].
Qed.

(** The objective has no term exactly when every coefficient is 0. *)
Lemma terms_nil (coef : MenuRow -> Q) (rows : list MenuRow) :
  terms coef rows = [] <-> Forall (fun row => coef row == 0)%Q rows.
Proof.
  induction rows as [|row rows IH]; [done|].
  rewrite terms_cons, Forall_cons, <- IH. unfold LpVariable_mul.
  destruct (Qeq_bool (coef row) 0) eqn:E.
  - apply Qeq_bool_iff in E. simpl. tauto.
  - split; [done|]. intros [H _]. apply Qeq_bool_iff in H. congruence.
Qed.

Lemma value_app (vals : gmap string Q) (e1 e2 : LpAffineExpression) (q1 q2 : Q) :
  value vals e1 = Some q1 -> value vals e2 = Some q2 ->
  exists q, value vals (e1 ++ e2)%list = Some q /\ (q == q1 + q2)%Q.
Proof.
  revert q1. induction e1 as [|[v c] e1 IH]; intros q1 H1 H2.
  - injection H1 as <-. exists q2. split; [done|ring].
  - simpl in H1. destruct (vals !! v) as [x|] eqn:Hx; [|done].
    destruct (value vals e1) as [s|] eqn:Hs; [|done]. injection H1 as <-.
    destruct (IH s eq_refl H2) as (q & Hq & Heq).
    simpl. rewrite Hx, Hq. eexists. split; [done|]. rewrite Heq. ring.
Qed.

(** On a 0/1 point, a sum of [coefficient * variable] over rows is the sum
    of the coefficients of the chosen rows. *)
Lemma value_terms_chosen (vals : gmap string Q) (coef : MenuRow -> Q) (rows : list MenuRow) :
  rows_binary vals rows ->
  exists q, value vals (terms coef rows) = Some q /\
            (q == sum_by coef (chosen vals rows))%Q.
Proof.
  induction rows as [|row rows IH]; intros Hbin.
  - exists 0%Q. split; [done|reflexivity].
  - apply rows_binary_cons in Hbin as [Hrow Hrows].
    destruct (IH Hrows) as (s & Hs & Hsum).
    assert (exists t, value vals (LpVariable_mul (menu_var (MenuItem row)) (coef row))
                      = Some t
                      /\ (t == if value_is_one vals (menu_var (MenuItem row))
                               then coef row else 0)%Q) as (t & Ht & Heq).
    { unfold LpVariable_mul. destruct (Qeq_bool (coef row) 0) eqn:E.
      - apply Qeq_bool_iff in E. exists 0%Q. split; [done|].
        destruct (value_is_one _ _); [by rewrite E|reflexivity].
      - destruct (value_is_one vals (menu_var (MenuItem row))) eqn:E1.
        + apply value_is_one_true in E1 as (x & Hx & Hx1).
          simpl. rewrite Hx. eexists. split; [done|]. rewrite Hx1. ring.
        + apply value_is_one_false_binary in E1 as (x & Hx & Hx0); [|done].
          simpl. rewrite Hx. eexists. split; [done|]. rewrite Hx0. ring. }
    rewrite terms_cons.
    destruct (value_app vals _ _ t s Ht Hs) as (q & Hq & Hqs).
    exists q. split; [done|]. rewrite Hqs, Heq, Hsum.
    unfold chosen. rewrite filter_cons. fold (chosen vals rows).
    destruct (value_is_one vals (menu_var (MenuItem row))) eqn:E.
    + rewrite decide_True by done. cbn [sum_by foldr]. reflexivity.
    + rewrite decide_False by done. ring.
Qed.

Lemma value_unit_terms_chosen (vals : gmap string Q) (rows : list MenuRow) :
  rows_binary vals rows ->
  exists q, value vals (unit_terms rows) = Some q /\
            (q == inject_Z (Z.of_nat (length (chosen vals rows))))%Q.
Proof.
  induction rows as [|row rows IH]; intros Hbin.
  - exists 0%Q. split; [done|reflexivity].
  - apply rows_binary_cons in Hbin as [Hrow Hrows].
    destruct (IH Hrows) as (s & Hs & Hsum).
    unfold chosen. rewrite filter_cons. fold (chosen vals rows).
    cbn [unit_terms map value]. fold (unit_terms rows). rewrite Hs.
    destruct (value_is_one vals (menu_var (MenuItem row))) eqn:E.
    + apply value_is_one_true in E as (x & Hx & Hx1).
      rewrite Hx, decide_True by done.
      eexists; split; [done|]. cbn [length].
      rewrite Hx1, Hsum, Nat2Z.inj_succ. unfold Z.succ. rewrite inject_Z_plus. ring.
    + apply value_is_one_false_binary in E as (x & Hx & Hx0); [|done].
      rewrite Hx, decide_False by done.
      eexists; split; [done|]. rewrite Hx0, Hsum. ring.
Qed.

Lemma chosen_in_category (vals : gmap string Q) (c : category) (rows : list MenuRow) :
  chosen vals (in_category c rows) = in_category c (chosen vals rows).
Proof.
  unfold chosen, in_category.
  induction rows as [|row rows IH]; [done|].
  rewrite !filter_cons.
  destruct (decide (py_eq (MenuCategory row) c = true)) as [Hc|Hc],
           (decide (value_is_one vals (menu_var (MenuItem row)) = true)) as [Hv|Hv];
    rewrite ?filter_cons, ?decide_True, ?decide_False by done;
    by rewrite IH.
Qed.

Lemma elem_of_unique (c : category) (l : list category) : c ∈ unique l <-> c ∈ l.
Proof.
  induction l as [|d l IH]; simpl; [done|].
  rewrite !elem_of_cons, list_elem_of_filter, IH.
  destruct (decide (c = d)); tauto.
Qed.

Lemma py_eq_true (a c : category) : py_eq a c = true -> a = c.
Proof.
  destruct a, c; simpl; try done.
  intros H. apply bool_decide_eq_true in H. by subst.
Qed.

Lemma py_eq_Label (a : category) (s : string) :
  py_eq a (Label s) = true <-> a = Label s.
Proof.
  split; [apply py_eq_true|]. intros ->. simpl. by apply bool_decide_eq_true.
Qed.

Lemma in_category_NaN (rows : list MenuRow) : in_category NaN rows = [].
Proof.
  unfold in_category. induction rows as [|row rows IH]; [done|].
  rewrite filter_cons_False; [done|]. by destruct (MenuCategory row).
Qed.

Lemma filter_ext_elem {A : Type} (P1 P2 : A -> Prop)
    `{!forall x, Decision (P1 x)} `{!forall x, Decision (P2 x)} (l : list A) :
  (forall x, x ∈ l -> P1 x <-> P2 x) -> filter P1 l = filter P2 l.
Proof.
  induction l as [|a l IH]; intros Hext; [done|].
  rewrite !filter_cons.
  assert (filter P1 l = filter P2 l) as ->
    by (apply IH; intros x Hx; apply Hext; by right).
  destruct (decide (P1 a)) as [H1|H1], (decide (P2 a)) as [H2|H2]; try done;
    exfalso; apply (Hext a) in H1 || apply (Hext a) in H2; try done; left.
Qed.

(** ** What feasibility of [menu_problem] means for the rows *)

Section problem.
Context (restaurant_id : string) (rows : list MenuRow) (max_budget : Q).

Let prob := menu_problem restaurant_id rows max_budget.

Lemma variables_menu_problem (v : LpVariable) :
  v ∈ variables prob -> exists row, row ∈ rows /\ v = menu_var (MenuItem row).
Proof.
  unfold variables. cbn [prob menu_problem p_objective p_constraints flat_map].
  cbn [budget_constraint c_expr].
  rewrite !elem_of_app. intros [H|[H|H]].
  - by apply terms_in_rows in H.
  - by apply terms_in_rows in H.
  - apply list_elem_of_In, in_flat_map in H as (c & Hc & H).
    apply list_elem_of_In, list_elem_of_fmap in Hc as (cat & -> & _).
    apply list_elem_of_In in H. cbn [category_constraint c_expr] in H.
    unfold expr_vars, unit_terms in H. rewrite map_map in H.
    apply list_elem_of_fmap in H as (row & -> & Hrow).
    exists row. split; [|done]. by apply in_category_subseteq in Hrow.
Qed.

Lemma category_constraint_holds (vals : gmap string Q) (c : category) :
  feasible prob vals -> c ∈ map MenuCategory rows ->
  holds vals (category_constraint rows c).
Proof.
  intros [_ Hcons] Hc. apply Forall_cons in Hcons as [_ Hcats].
  rewrite Forall_forall in Hcats. apply Hcats.
  apply list_elem_of_fmap. exists c. split; [done|]. by apply elem_of_unique.
Qed.

(** A missing category makes the problem infeasible: its constraint
    sums no variable at all. *)
Lemma feasible_no_NaN (vals : gmap string Q) :
  feasible prob vals -> NaN ∉ map MenuCategory rows.
Proof.
  intros Hfeas HNaN.
  destruct (category_constraint_holds vals NaN Hfeas HNaN) as (lhs & Hlhs & Hle).
  cbn [category_constraint c_expr c_sense c_rhs sense_holds] in Hlhs, Hle.
  rewrite in_category_NaN in Hlhs. injection Hlhs as <-.
  by vm_compute in Hle.
Qed.

(** Every row has a label, so its variable stands in the constraint of
    its category and is 0 or 1. *)
Lemma feasible_rows_binary (vals : gmap string Q) :
  feasible prob vals -> rows_binary vals rows.
Proof.
  intros Hfeas row Hrow.
  pose proof (feasible_no_NaN vals Hfeas) as HNaN.
  destruct Hfeas as [Hbin _]. rewrite Forall_forall in Hbin. apply Hbin.
  assert (MenuCategory row ∈ map MenuCategory rows) as Hc
    by (apply list_elem_of_fmap; by exists row).
  destruct (MenuCategory row) as [s|] eqn:Hs; [|done].
  unfold variables. apply elem_of_app. right.
  apply list_elem_of_In, in_flat_map.
  exists (category_constraint rows (Label s)). split.
  - apply list_elem_of_In. cbn [prob menu_problem p_constraints]. right.
    apply list_elem_of_fmap. exists (Label s). split; [done|]. by apply elem_of_unique.
  - apply list_elem_of_In. cbn [category_constraint c_expr].
    unfold expr_vars, unit_terms. rewrite map_map.
    apply list_elem_of_fmap. exists row. split; [done|].
    apply list_elem_of_filter. split; [|done]. rewrite Hs. by apply py_eq_Label.
Qed.

Lemma feasible_budget (vals : gmap string Q) :
  feasible prob vals -> (sum_by Price (chosen vals rows) <= max_budget)%Q.
Proof.
  intros Hfeas. pose proof (feasible_rows_binary vals Hfeas) as Hbin.
  destruct Hfeas as [_ Hcons].
  apply Forall_cons in Hcons as [(lhs & Hlhs & Hle) _].
  cbn [budget_constraint c_expr c_sense c_rhs sense_holds] in Hlhs, Hle.
  destruct (value_terms_chosen vals Price rows Hbin) as (q & Hq & Hsum).
  rewrite Hq in Hlhs. injection Hlhs as <-. by rewrite <- Hsum.
Qed.

Lemma feasible_category (vals : gmap string Q) (c : category) :
  feasible prob vals -> c ∈ map MenuCategory rows ->
  (min_items_per_category <= Z.of_nat (length (in_category c (chosen vals rows))))%Z.
Proof.
  intros Hfeas Hc. pose proof (feasible_rows_binary vals Hfeas) as Hbin.
  destruct (category_constraint_holds vals c Hfeas Hc) as (lhs & Hlhs & Hle).
  cbn [category_constraint c_expr c_sense c_rhs sense_holds] in Hlhs, Hle.
  destruct (value_unit_terms_chosen vals (in_category c rows)) as (q & Hq & Hsum).
  { eapply rows_binary_subseteq; [apply in_category_subseteq|done]. }
  rewrite Hq in Hlhs. injection Hlhs as <-.
  rewrite Hsum, chosen_in_category in Hle.
  by rewrite <- Zle_Qle in Hle.
Qed.

(** The value of the objective at a point of the program. *)
Lemma feasible_objective (vals : gmap string Q) :
  feasible prob vals ->
  exists q, value vals (terms SellingPrice rows) = Some q /\
            (q == sum_by SellingPrice (chosen vals rows))%Q.
Proof.
  intros Hfeas. apply value_terms_chosen. by apply feasible_rows_binary.
Qed.

End problem.

(** ** The reference solver is exact *)

Section exhaustive_exact.
Import exhaustive.

Lemma value_agree (vs : list LpVariable) (m1 m2 : gmap string Q)
    (e : LpAffineExpression) (q : Q) :
  agree vs m1 m2 -> expr_vars e ⊆ vs -> value m1 e = Some q ->
  exists q', value m2 e = Some q' /\ (q == q')%Q.
Proof.
  intros Hag. revert q. induction e as [|[v c] e IH]; intros q Hsub Hval.
  - simpl in Hval. injection Hval as <-. exists 0%Q. split; [done|reflexivity].
  - simpl in Hval.
    destruct (Hag v) as (x & y & Hx & Hy & Hxy); [apply Hsub; left|].
    rewrite Hx in Hval.
    destruct (value m1 e) as [s|] eqn:Hs; [|done]. injection Hval as <-.
    destruct (IH s) as (s' & Hs' & Hss'); [|done|].
    { intros w Hw. apply Hsub. by right. }
    simpl. rewrite Hy, Hs'. eexists. split; [done|]. by rewrite Hxy, Hss'.
Qed.

Lemma assignments_binary (vs : list LpVariable) (a : gmap string Q) :
  a ∈ assignments vs -> Forall (is_binary a) vs.
Proof.
  revert a. induction vs as [|v vs IH]; intros a Ha; [done|].
  simpl in Ha. apply list_elem_of_In, in_flat_map in Ha as (a' & Ha' & Ha).
  apply list_elem_of_In, IH in Ha'. apply list_elem_of_In in Ha.
  rewrite Forall_forall in Ha'. apply Forall_forall. intros w Hw.
  destruct (decide (v = w)) as [<-|Hne].
  - apply elem_of_cons in Ha as [->|Ha].
    + exists 0%Q. rewrite lookup_insert_eq. split; [done|]. by left.
    + apply list_elem_of_singleton in Ha as ->.
      exists 1%Q. rewrite lookup_insert_eq. split; [done|]. by right.
  - apply elem_of_cons in Hw as [->|Hw]; [done|].
    destruct (Ha' w Hw) as (x & Hx & H01).
    exists x. split; [|done].
    apply elem_of_cons in Ha as [->|Ha].
    + by rewrite lookup_insert_ne.
    + apply list_elem_of_singleton in Ha as ->. by rewrite lookup_insert_ne.
Qed.

Lemma assignments_complete (vs : list LpVariable) (vals : gmap string Q) :
  Forall (is_binary vals) vs ->
  exists a, a ∈ assignments vs /\ agree vs vals a.
Proof.
  induction vs as [|v vs IH]; intros Hbin.
  - exists ∅. split; [by left|]. intros w Hw. by apply elem_of_nil in Hw.
  - apply Forall_cons in Hbin as [(x & Hx & H01) Hbin].
    destruct (IH Hbin) as (a' & Ha' & Hag).
    set (b := if Qeq_bool x 0 then 0%Q else 1%Q).
    assert (x == b)%Q as Hxb.
    { unfold b. destruct (Qeq_bool x 0) eqn:E.
      - by apply Qeq_bool_iff.
      - destruct H01 as [H0|H1]; [|done].
        apply Qeq_bool_iff in H0. congruence. }
    exists (<[v:=b]> a'). split.
    + simpl. apply list_elem_of_In, in_flat_map. exists a'.
      split; [by apply list_elem_of_In|]. apply list_elem_of_In.
      unfold b. destruct (Qeq_bool x 0); [by left|right; by left].
    + intros w Hw. destruct (decide (v = w)) as [<-|Hne].
      * exists x, b. by rewrite lookup_insert_eq.
      * apply elem_of_cons in Hw as [->|Hw]; [done|].
        destruct (Hag w Hw) as (y & z & Hy & Hz & Hyz).
        exists y, z. by rewrite lookup_insert_ne.
Qed.

Lemma holdsb_holds (vals : gmap string Q) (c : LpConstraint) :
  holdsb vals c = true <-> holds vals c.
Proof.
  unfold holdsb, holds. destruct (value vals (c_expr c)) as [lhs|].
  - split.
    + intros H. exists lhs. split; [done|].
      destruct (c_sense c); simpl in *; by apply Qle_bool_iff.
    + intros (lhs' & [= <-] & H).
      destruct (c_sense c); simpl in *; by apply Qle_bool_iff.
  - split; [done|]. by intros (lhs & ? & _).
Qed.

Lemma holds_agree (vs : list LpVariable) (m1 m2 : gmap string Q) (c : LpConstraint) :
  agree vs m1 m2 -> expr_vars (c_expr c) ⊆ vs -> holds m1 c -> holds m2 c.
Proof.
  intros Hag Hsub (lhs & Hlhs & Hcmp).
  destruct (value_agree vs m1 m2 _ _ Hag Hsub Hlhs) as (lhs' & Hlhs' & Heq).
  exists lhs'. split; [done|].
  destruct (c_sense c); simpl in *; by rewrite <- Heq.
Qed.

Lemma best_None (p : LpProblem) (l : list (gmap string Q)) :
  best p l = None -> l = [].
Proof.
  destruct l as [|a l]; [done|]. simpl.
  destruct (best p l) as [b|]; [|done].
  by destruct (Qle_bool (objective_of p a) (objective_of p b)).
Qed.

Lemma best_Some (p : LpProblem) (l : list (gmap string Q)) (b : gmap string Q) :
  best p l = Some b ->
  b ∈ l /\ forall a, a ∈ l -> (objective_of p a <= objective_of p b)%Q.
Proof.
  revert b. induction l as [|a l IH]; intros b Hb; [done|].
  simpl in Hb. destruct (best p l) as [b'|] eqn:E.
  - destruct (IH b' eq_refl) as [Hin Hmax].
    destruct (Qle_bool (objective_of p a) (objective_of p b')) eqn:Hle;
      injection Hb as <-.
    + split; [by right|]. intros a' Ha'.
      apply elem_of_cons in Ha' as [->|Ha']; [by apply Qle_bool_iff|auto].
    + split; [by left|]. intros a' Ha'.
      apply elem_of_cons in Ha' as [->|Ha']; [apply Qle_refl|].
      assert (~ (objective_of p a <= objective_of p b')%Q) as Hnle
        by (rewrite <- Qle_bool_iff; congruence).
      specialize (Hmax a' Ha'). lra.
  - injection Hb as <-. split; [by left|]. intros a' Ha'.
    apply best_None in E as ->.
    apply list_elem_of_singleton in Ha' as ->. apply Qle_refl.
Qed.

Lemma variables_constraint (p : LpProblem) (c : LpConstraint) :
  c ∈ p_constraints p -> expr_vars (c_expr c) ⊆ remove_dups (variables p).
Proof.
  intros Hc v Hv. apply elem_of_remove_dups. unfold variables.
  apply elem_of_app. right. apply list_elem_of_In, in_flat_map.
  exists c. split; by apply list_elem_of_In.
Qed.

Lemma feasibleb_feasible (p : LpProblem) (a : gmap string Q) :
  feasibleb p a = true <-> Forall (holds a) (p_constraints p).
Proof.
  unfold feasibleb. rewrite forallb_forall, Forall_forall.
  split; intros H c Hc.
  - apply holdsb_holds, H. by apply list_elem_of_In.
  - apply holdsb_holds, H. by apply list_elem_of_In.
Qed.

(** Every point of the integer program is matched by an enumerated
    candidate that passes the feasibility test. *)
Lemma feasible_candidate (p : LpProblem) (vals : gmap string Q) :
  feasible p vals ->
  exists a,
    a ∈ filter (fun a => feasibleb p a = true)
               (assignments (remove_dups (variables p)))
    /\ agree (remove_dups (variables p)) vals a.
Proof.
  intros [Hbin Hcons].
  destruct (assignments_complete (remove_dups (variables p)) vals)
    as (a & Ha & Hag).
  { rewrite Forall_forall in Hbin. apply Forall_forall.
    intros v Hv. apply Hbin. by apply elem_of_remove_dups. }
  exists a. split; [|done].
  apply list_elem_of_filter. split; [|done].
  apply feasibleb_feasible. rewrite Forall_forall in Hcons.
  apply Forall_forall. intros c Hc.
  eapply holds_agree; [done|by apply variables_constraint|auto].
Qed.

Lemma variables_objective (p : LpProblem) :
  expr_vars (p_objective p) ⊆ remove_dups (variables p).
Proof.
  intros v Hv. apply elem_of_remove_dups, elem_of_app. by left.
Qed.

Lemma exhaustive_exact : exact solve.
Proof.
  intros p Hst. unfold solve in *.
  destruct (best p _) as [a|] eqn:E; [|done]. simpl. clear Hst.
  apply best_Some in E as [Hin Hmax].
  apply list_elem_of_filter in Hin as [Hfb Hin].
  split.
  - split; [|by apply feasibleb_feasible].
    apply assignments_binary in Hin. rewrite Forall_forall in Hin.
    apply Forall_forall. intros v Hv. apply Hin. by apply elem_of_remove_dups.
  - intros vals' q q' Hfeas' Hq Hq'.
    destruct (feasible_candidate p vals' Hfeas') as (a' & Hin' & Hag).
    specialize (Hmax a' Hin').
    destruct (value_agree _ _ _ _ _ Hag (variables_objective p) Hq')
      as (q'' & Hq'' & Heq).
    unfold objective_of in Hmax. rewrite Hq, Hq'' in Hmax. simpl in Hmax.
    by rewrite Heq.
Qed.

(** The reference solver reports [Optimal] exactly when the integer
    program has a point. *)
Lemma exhaustive_complete (p : LpProblem) :
  (solve p).1 = LpStatusOptimal <-> exists vals, feasible p vals.
Proof.
  split.
  - intros Hst. exists (solve p).2. by apply exhaustive_exact.
  - intros (vals & Hfeas). unfold solve.
    destruct (best p _) as [a|] eqn:E; [done|].
    apply best_None in E.
    destruct (feasible_candidate p vals Hfeas) as (a & Hin & _).
    rewrite E in Hin. by apply elem_of_nil in Hin.
Qed.

End exhaustive_exact.

(** ** A set of rows as a 0/1 point *)

Lemma menu_var_inj (a b : string) : menu_var a = menu_var b -> a = b.
Proof. cbv [menu_var String.append]. by intros [= ->]. Qed.

Lemma indicator_lookup (rows sub : list MenuRow) (row : MenuRow) :
  row ∈ rows ->
  indicator rows sub !! menu_var (MenuItem row)
  = Some (if bool_decide (MenuItem row ∈ map MenuItem sub) then 1%Q else 0%Q).
Proof.
  unfold indicator. induction rows as [|r rows IH]; intros Hin.
  - by apply elem_of_nil in Hin.
  - cbn [map list_to_map foldr].
    destruct (decide (menu_var (MenuItem r) = menu_var (MenuItem row))) as [Heq|Hne].
    + rewrite Heq, lookup_insert_eq. apply menu_var_inj in Heq. by rewrite Heq.
    + rewrite lookup_insert_ne by done. apply IH.
      apply elem_of_cons in Hin as [->|Hin]; done.
Qed.

Lemma indicator_binary (rows sub : list MenuRow) :
  rows_binary (indicator rows sub) rows.
Proof.
  intros row Hrow. eexists. split; [by apply indicator_lookup|].
  destruct (bool_decide _); [by right|by left].
Qed.

Lemma indicator_is_one (rows sub : list MenuRow) (row : MenuRow) :
  row ∈ rows ->
  value_is_one (indicator rows sub) (menu_var (MenuItem row)) = true
  <-> MenuItem row ∈ map MenuItem sub.
Proof.
  intros Hrow. unfold value_is_one. rewrite indicator_lookup by done.
  destruct (bool_decide (MenuItem row ∈ map MenuItem sub)) eqn:E.
  - apply bool_decide_eq_true in E. split; [done|]. intros _. reflexivity.
  - apply bool_decide_eq_false in E. split; [|done]. intros H. discriminate H.
Qed.

(** With distinct keys, a sublist is recovered from the keys it holds. *)
Lemma filter_keys_sublist {A : Type} (f : A -> string) (rows sub : list A) :
  NoDup (map f rows) -> sub `sublist_of` rows ->
  filter (fun r => f r ∈ map f sub) rows = sub.
Proof.
  intros Hnd Hsub. induction Hsub as [|x sub rows Hsub IH|x sub rows Hsub IH].
  - done.
  - cbn [map] in Hnd. apply NoDup_cons in Hnd as [Hx Hnd].
    rewrite filter_cons_True by (cbn [map]; left). f_equal.
    transitivity (filter (fun r => f r ∈ map f sub) rows); [|by apply IH].
    apply filter_ext_elem. intros r Hr. cbn [map]. rewrite elem_of_cons. split; [|tauto].
    intros [Heq|H]; [|done]. exfalso. apply Hx. rewrite <- Heq.
    apply list_elem_of_fmap. by exists r.
  - cbn [map] in Hnd. apply NoDup_cons in Hnd as [Hx Hnd].
    rewrite filter_cons_False; [by apply IH|].
    intros Hin. apply Hx.
    apply list_elem_of_fmap in Hin as (r & -> & Hr).
    apply list_elem_of_fmap. exists r. split; [done|].
    by apply (sublist_subseteq _ _ Hsub).
Qed.

Lemma chosen_indicator (rows sub : list MenuRow) :
  NoDup (map MenuItem rows) -> sub `sublist_of` rows ->
  chosen (indicator rows sub) rows = sub.
Proof.
  intros Hnd Hsub.
  transitivity (filter (fun r => MenuItem r ∈ map MenuItem sub) rows);
    [|by apply filter_keys_sublist].
  unfold chosen. apply filter_ext_elem.
  intros row Hrow. by apply indicator_is_one.
Qed.

Lemma in_category_Label (s : string) (rows : list MenuRow) :
  in_category (Label s) rows = bearing (Label s) rows.
Proof.
  unfold in_category, bearing. apply filter_ext_elem.
  intros row _. apply py_eq_Label.
Qed.

Lemma in_category_length (c : category) (rows : list MenuRow) :
  length (in_category c rows) <= length (bearing c rows).
Proof.
  destruct c as [s|].
  - by rewrite in_category_Label.
  - rewrite in_category_NaN. simpl. lia.
Qed.

Lemma sum_by_Permutation {A : Type} (f : A -> Q) (l1 l2 : list A) :
  l1 ≡ₚ l2 -> (sum_by f l1 == sum_by f l2)%Q.
Proof.
  induction 1 as [|x l1 l2 _ IH|x y l|l1 l2 l3 _ IH1 _ IH2]; cbn [sum_by foldr].
  - reflexivity.
  - fold (sum_by f l1) (sum_by f l2). by rewrite IH.
  - ring.
  - by rewrite IH1.
Qed.

Lemma bearing_Permutation (c : category) (l1 l2 : list MenuRow) :
  l1 ≡ₚ l2 -> length (bearing c l1) = length (bearing c l2).
Proof. intros Hperm. unfold bearing. by rewrite Hperm. Qed.

(** A set of rows that meets the budget and the category minimum is a
    point of the integer program, provided no category is missing. *)
Lemma indicator_feasible (restaurant_id : string) (rows sub : list MenuRow)
    (max_budget : Q) :
  NoDup (map MenuItem rows) -> sub `sublist_of` rows ->
  NaN ∉ map MenuCategory rows ->
  (sum_by Price sub <= max_budget)%Q ->
  (forall c, c ∈ map MenuCategory rows ->
             (min_items_per_category <= Z.of_nat (length (bearing c sub)))%Z) ->
  feasible (menu_problem restaurant_id rows max_budget) (indicator rows sub).
Proof.
  intros Hnd Hsub HNaN Hbudget Hcats. split.
  - apply Forall_forall. intros v Hv.
    apply variables_menu_problem in Hv as (row & Hrow & ->).
    by apply indicator_binary.
  - cbn [menu_problem p_constraints]. apply Forall_cons. split.
    + destruct (value_terms_chosen (indicator rows sub) Price rows)
        as (q & Hq & Hsum); [apply indicator_binary|].
      exists q. split; [done|]. cbn [budget_constraint c_sense c_rhs sense_holds].
      by rewrite Hsum, chosen_indicator.
    + apply Forall_forall. intros k Hk.
      apply list_elem_of_fmap in Hk as (c & -> & Hc).
      apply (proj1 (elem_of_unique _ _)) in Hc.
      destruct (value_unit_terms_chosen (indicator rows sub) (in_category c rows))
        as (q & Hq & Hsum).
      { eapply rows_binary_subseteq; [apply in_category_subseteq|].
        apply indicator_binary. }
      exists q. split; [done|]. cbn [category_constraint c_sense c_rhs sense_holds].
      rewrite Hsum, chosen_in_category, chosen_indicator by done.
      rewrite <- Zle_Qle. specialize (Hcats c Hc).
      destruct c as [s|]; [by rewrite in_category_Label|done].
Qed.

(** A set of rows that meets the spec's two constraints shows that the
    program has a point. *)
Lemma cover_feasible (restaurant_id : string) (rows sub : list MenuRow)
    (max_budget : Q) :
  NoDup (map MenuItem rows) ->
  NaN ∉ map MenuCategory rows ->
  sub ⊆+ rows ->
  within_budget max_budget sub ->
  covers_categories rows sub ->
  exists vals, feasible (menu_problem restaurant_id rows max_budget) vals.
Proof.
  intros Hnd HNaN Hsub Hbudget Hcover.
  apply submseteq_sublist_r in Hsub as (sub' & Hperm & Hsub').
  exists (indicator rows sub'). apply indicator_feasible; try done.
  - unfold within_budget in Hbudget.
    by rewrite <- (sum_by_Permutation Price sub sub' Hperm).
  - intros c Hc. rewrite <- (bearing_Permutation c sub sub' Hperm).
    by apply Hcover.
Qed.

(** An optimum of the program is worth at least as much as any set of
    rows that meets the budget and the category minimum. *)
Lemma optimal_dominates (restaurant_id : string) (rows sub : list MenuRow)
    (max_budget : Q) (vals : gmap string Q) :
  optimal (menu_problem restaurant_id rows max_budget) vals ->
  NoDup (map MenuItem rows) ->
  sub ⊆+ rows ->
  within_budget max_budget sub ->
  covers_categories rows sub ->
  exists q, value vals (terms SellingPrice rows) = Some q
            /\ (sum_by SellingPrice sub <= q)%Q.
Proof.
  intros [Hfeas Hmax] Hnd Hsub Hbudget Hcover.
  apply submseteq_sublist_r in Hsub as (sub' & Hperm & Hsub').
  destruct (feasible_objective restaurant_id rows max_budget _ Hfeas)
    as (q & Hq & _).
  exists q. split; [done|].
  assert (feasible (menu_problem restaurant_id rows max_budget) (indicator rows sub'))
    as Hfeas'.
  { apply indicator_feasible; try done.
    - by eapply feasible_no_NaN.
    - unfold within_budget in Hbudget.
      by rewrite <- (sum_by_Permutation Price sub sub' Hperm).
    - intros c Hc. rewrite <- (bearing_Permutation c sub sub' Hperm).
      by apply Hcover. }
  destruct (feasible_objective restaurant_id rows max_budget _ Hfeas')
    as (q' & Hq' & Hsum').
  rewrite chosen_indicator in Hsum' by done.
  rewrite (sum_by_Permutation SellingPrice sub sub' Hperm), <- Hsum'.
  by apply (Hmax (indicator rows sub')).
Qed.

(** ** The objective that is read back *)

Lemma objective_value_Some (vals : gmap string Q) (e : LpAffineExpression) (q : Q) :
  objective_value vals e = Some q -> value vals e = Some q.
Proof. by destruct e. Qed.

Lemma objective_value_terms (vals : gmap string Q) (rows : list MenuRow) :
  has_selling_price rows ->
  objective_value vals (terms SellingPrice rows) = value vals (terms SellingPrice rows).
Proof.
  intros Hsome. destruct (terms SellingPrice rows) eqn:E; [|done].
  apply terms_nil in E. apply Exists_exists in Hsome as (row & Hrow & Hne).
  rewrite Forall_forall in E. by destruct (Hne (E row Hrow)).
Qed.


(** ** Solvers *)

Lemma solvable_optimal (solve : LpProblem -> LpSolution) (p : LpProblem)
    (vals : gmap string Q) :
  exact solve -> decisive solve -> feasible p vals -> optimal p (solve p).2.
Proof. intros Hexact Hdec Hfeas. apply Hexact, Hdec. by exists vals. Qed.

Lemma exhaustive_decisive : decisive exhaustive.solve.
Proof. intros p Hfeas. by apply exhaustive_complete. Qed.

(** A problem on which the enumeration finds nothing has no point. *)
Lemma infeasible_by_enumeration (p : LpProblem) :
  (exhaustive.solve p).1 <> LpStatusOptimal -> forall vals, ~ feasible p vals.
Proof.
  intros Hst vals Hfeas. apply Hst, exhaustive_complete. by exists vals.
Qed.

Lemma leaving_exact (leftover : gmap string Q) : exact (leaving leftover).
Proof.
  intros p. unfold leaving.
  pose proof (exhaustive_exact p) as Hexact.
  destruct (exhaustive.solve p) as [status vals].
  by destruct status.
Qed.

Lemma leaving_decisive (leftover : gmap string Q) : decisive (leaving leftover).
Proof.
  intros p Hfeas. apply exhaustive_complete in Hfeas. unfold leaving.
  destruct (exhaustive.solve p) as [status vals]. simpl in Hfeas. by subst status.
Qed.

(** ** Properties of the returned selection *)

Lemma count_category_selected (c : category) (rows : list MenuRow) :
  count_category c (map selected_item rows) = length (bearing c rows).
Proof.
  unfold count_category, bearing.
  induction rows as [|row rows IH]; [done|].
  cbn [map]. rewrite !filter_cons. cbn [selected_item sel_Category].
  destruct (decide (MenuCategory row = c)); simpl; by rewrite IH.
Qed.

Lemma chosen_cons (vals : gmap string Q) (row : MenuRow) (rows : list MenuRow) :
  chosen vals (row :: rows)
  = if value_is_one vals (menu_var (MenuItem row))
    then row :: chosen vals rows else chosen vals rows.
Proof.
  unfold chosen. rewrite filter_cons.
  destruct (value_is_one vals (menu_var (MenuItem row)));
    [by rewrite decide_True|by rewrite decide_False].
Qed.

Section solved.
Context (solve : LpProblem -> LpSolution) (solve_exact : exact solve).
Context (df : list MenuRow) (restaurant_id : string) (max_budget : Q).

Let rows := restaurant_rows df restaurant_id.
Let prob := menu_problem restaurant_id rows max_budget.

Lemma feasible_result_optimal :
  feasible_result solve df restaurant_id max_budget -> optimal prob (solve prob).2.
Proof.
  unfold feasible_result, statuses. rewrite optimize_menu_submitted.
  cbn [map]. intros [= Hst]. by apply solve_exact.
Qed.

Lemma returned_inv (sel : list SelectedItem) (obj : option Q) :
  run solve (optimize_menu df restaurant_id max_budget) = Returned (sel, obj) ->
  sel = map selected_item (chosen (solve prob).2 rows) /\
  obj = objective_value (solve prob).2 (terms SellingPrice rows).
Proof. rewrite optimize_menu_run. by intros [= <- <-]. Qed.

End solved.

(** At a point of the program the returned selection meets the budget. *)
Lemma feasible_selection_budget (restaurant_id : string) (rows : list MenuRow)
    (max_budget : Q) (vals : gmap string Q) :
  feasible (menu_problem restaurant_id rows max_budget) vals ->
  (sum_by sel_Price (map selected_item (chosen vals rows)) <= max_budget)%Q.
Proof.
  intros Hfeas. rewrite sum_by_map. cbn [selected_item sel_Price].
  by apply (feasible_budget restaurant_id).
Qed.

Lemma feasible_selection_category (restaurant_id : string) (rows : list MenuRow)
    (max_budget : Q) (vals : gmap string Q) (c : category) :
  feasible (menu_problem restaurant_id rows max_budget) vals ->
  c ∈ map MenuCategory rows ->
  (min_items_per_category
   <= Z.of_nat (count_category c (map selected_item (chosen vals rows))))%Z.
Proof.
  intros Hfeas Hc. rewrite count_category_selected.
  pose proof (feasible_category restaurant_id _ max_budget _ c Hfeas Hc) as Hmin.
  pose proof (in_category_length c (chosen vals rows)) as Hlen.
  lia.
Qed.

Lemma feasible_selection_objective (restaurant_id : string) (rows : list MenuRow)
    (max_budget : Q) (vals : gmap string Q) :
  feasible (menu_problem restaurant_id rows max_budget) vals ->
  has_selling_price rows ->
  exists q, objective_value vals (terms SellingPrice rows) = Some q
            /\ (q == sum_by sel_SellingPrice (map selected_item (chosen vals rows)))%Q.
Proof.
  intros Hfeas Hsome. rewrite objective_value_terms by done.
  rewrite sum_by_map. cbn [selected_item sel_SellingPrice].
  by apply (feasible_objective restaurant_id _ max_budget).
Qed.

Lemma sum_by_nonneg {A : Type} (f : A -> Q) (l : list A) :
  Forall (fun a => 0 <= f a)%Q l -> (0 <= sum_by f l)%Q.
Proof.
  induction 1 as [|a l Ha _ IH]; cbn [sum_by foldr]; [lra|].
  fold (sum_by f l). lra.
Qed.

(** No point of the program spends a negative budget on dishes that cost
    nothing or more. *)
Lemma negative_budget_infeasible (restaurant_id : string) (rows : list MenuRow)
    (max_budget : Q) (vals : gmap string Q) :
  Forall (fun row => 0 <= Price row)%Q rows -> (max_budget < 0)%Q ->
  ~ feasible (menu_problem restaurant_id rows max_budget) vals.
Proof.
  intros Hprices Hneg Hfeas.
  pose proof (feasible_budget restaurant_id rows max_budget vals Hfeas) as Hbudget.
  assert (0 <= sum_by Price (chosen vals rows))%Q as Hsum.
  { apply sum_by_nonneg. rewrite Forall_forall in Hprices. apply Forall_forall.
    intros r Hr. apply Hprices. by apply list_elem_of_filter in Hr as [_ ?]. }
  lra.
Qed.

(** C1, as stated, fails on a table that lists a dish twice.  The two
    Bruschetta rows share one variable, which costs 22; at budget 12 every
    exact solver returns the Olives alone, worth 10, although the first
    Bruschetta row alone costs 10, covers the one category and is worth
    40. *)
Lemma optimize_menu_optimal_counterexample :
  (forall solve, exact solve -> decisive solve ->
     exists q, run solve (optimize_menu relisted_menu "R1" 12)
               = Returned ([mkSelected "Olives" (Label "Appetizer") 5 "Low" 10], Some q)
               /\ (q == 10)%Q)
  /\ run exhaustive.solve (optimize_menu relisted_menu "R1" 12)
     = Returned ([mkSelected "Olives" (Label "Appetizer") 5 "Low" 10], Some 10%Q)
  /\ [mkRow "R1" "Bruschetta" (Label "Appetizer") 10 "High" 40]
       ⊆+ restaurant_rows relisted_menu "R1"
  /\ within_budget 12 [mkRow "R1" "Bruschetta" (Label "Appetizer") 10 "High" 40]
  /\ covers_categories (restaurant_rows relisted_menu "R1")
                       [mkRow "R1" "Bruschetta" (Label "Appetizer") 10 "High" 40]
  /\ (10 < sum_by SellingPrice
             [mkRow "R1" "Bruschetta" (Label "Appetizer") 10 "High" 40])%Q.
Proof.
  split; [|split; [evaluate|split; [|split; [|split]]]].
  - intros solve Hexact Hdec. rewrite optimize_menu_run. cbn zeta.
    assert (restaurant_rows relisted_menu "R1" = relisted_menu) as -> by evaluate.
    set (prob := menu_problem "R1" relisted_menu 12).
    assert (optimal prob (solve prob).2) as [Hfeas _].
    { apply (solvable_optimal solve prob (exhaustive.solve prob).2); try done.
      apply exhaustive_exact. evaluate. }
    pose proof (feasible_budget "R1" _ 12 _ Hfeas) as Hbudget.
    pose proof (feasible_category "R1" _ 12 _ (Label "Appetizer") Hfeas) as Hmin.
    destruct (feasible_objective "R1" _ 12 _ Hfeas) as (q & Hq & Hsum).
    rewrite objective_value_terms
      by (apply Exists_cons_hd; intros H; by vm_compute in H).
    fold prob in Hbudget, Hmin, Hq, Hsum. rewrite Hq. clear Hq.
    unfold relisted_menu in *. rewrite !chosen_cons in *. cbn [MenuItem] in *.
    destruct (value_is_one (solve prob).2 (menu_var "Bruschetta"));
      destruct (value_is_one (solve prob).2 (menu_var "Olives")).
    + exfalso. by vm_compute in Hbudget.
    + exfalso. by vm_compute in Hbudget.
    + exists q. split; [done|]. rewrite Hsum. by vm_compute.
    + exfalso. assert (1 <= 0)%Z; [|lia]. apply Hmin. vm_compute. left.
  - vm_compute. apply submseteq_skip, submseteq_cons, submseteq_cons, submseteq_nil_l.
  - by vm_compute.
  - intros c Hc. vm_compute in Hc.
    repeat (apply elem_of_cons in Hc as [->|Hc]); [by vm_compute ..|].
    by apply elem_of_nil in Hc.
  - by vm_compute.
Qed.

(** C1, amended: on a table whose item identifiers are distinct within
    the restaurant and whose rows all have a category, with a solver that
    is exact and decisive, whenever the call returns a number as objective
    value, no set of the restaurant's rows (in any order) that meets the
    budget and every category's minimum count has a sum of selling prices
    above that number. *)
Theorem optimize_menu_optimal (solve : LpProblem -> LpSolution) (df : list MenuRow)
    (restaurant_id : string) (max_budget : Q)
    (selected_items : list SelectedItem) (q : Q) (sub : list MenuRow) :
  exact solve ->
  decisive solve ->
  NoDup (map MenuItem (restaurant_rows df restaurant_id)) ->
  NaN ∉ map MenuCategory (restaurant_rows df restaurant_id) ->
  run solve (optimize_menu df restaurant_id max_budget)
    = Returned (selected_items, Some q) ->
  sub ⊆+ restaurant_rows df restaurant_id ->
  within_budget max_budget sub ->
  covers_categories (restaurant_rows df restaurant_id) sub ->
  (sum_by SellingPrice sub <= q)%Q.
Proof.
  intros Hexact Hdec Hnd HNaN Hrun Hsub Hbudget Hcover.
  apply returned_inv in Hrun as [_ Hobj].
  symmetry in Hobj. apply objective_value_Some in Hobj.
  set (rows := restaurant_rows df restaurant_id) in *.
  destruct (cover_feasible restaurant_id rows sub max_budget) as (vals & Hfeas);
    try done.
  pose proof (solvable_optimal solve _ vals Hexact Hdec Hfeas) as Hopt.
  destruct (optimal_dominates restaurant_id rows sub max_budget _ Hopt)
    as (q' & Hq' & Hle); try done.
  rewrite Hobj in Hq'. by injection Hq' as <-.
Qed.

Lemma optimize_menu_optimal_witness :
  exists selected_items q,
    run exhaustive.solve (optimize_menu sample_menu "R1" 30)
      = Returned (selected_items, Some q) /\
    (sum_by SellingPrice
       [ mkRow "R1" "Risotto" (Label "Entree") 20 "Medium" 60;
         mkRow "R1" "Olives" (Label "Appetizer") 5 "Low" 10 ] <= q)%Q.
Proof.
  eexists _, _. split; [evaluate|].
  eapply (optimize_menu_optimal exhaustive.solve sample_menu "R1" 30).
  - apply exhaustive_exact.
  - apply exhaustive_decisive.
  - compute_done.
  - compute_done.
  - evaluate.
  - vm_compute. apply submseteq_cons, submseteq_swap.
  - unfold within_budget. apply Qle_bool_iff. evaluate.
  - intros c Hc. vm_compute in Hc.
    repeat (apply elem_of_cons in Hc as [->|Hc]); [vm_compute; discriminate ..|].
    by apply elem_of_nil in Hc.
Defined.

(** C2, on the failing input: the three dishes of R1 at budget -5.  The
    program has no point and the solver reports [Infeasible];
    [optimize_menu] does not read the status and returns the dishes whose
    variable was left at 1.  With a solver, exact and decisive, that leaves
    the values at which the three constraints are tight, the call returns
    the Risotto, a selection that is not empty and costs 20, more than the
    budget. *)
Theorem optimize_menu_overdrawn :
  exact (leaving overdrawn)
  /\ decisive (leaving overdrawn)
  /\ (forall vals,
        ~ feasible (menu_problem "R1" (restaurant_rows sample_menu "R1") (-5)) vals)
  /\ statuses (leaving overdrawn) (optimize_menu sample_menu "R1" (-5))
     = [LpStatusInfeasible]
  /\ run (leaving overdrawn) (optimize_menu sample_menu "R1" (-5))
     = Returned ([mkSelected "Risotto" (Label "Entree") 20 "Medium" 60],
                 Some (-110)%Q)
  /\ [mkSelected "Risotto" (Label "Entree") 20 "Medium" 60] <> []
  /\ (-5 < sum_by sel_Price [mkSelected "Risotto" (Label "Entree") 20 "Medium" 60])%Q.
Proof.
  split; [apply leaving_exact|]. split; [apply leaving_decisive|].
  split; [|split; [evaluate|split; [evaluate|split; [done|by vm_compute]]]].
  intros vals. apply negative_budget_infeasible; [|by vm_compute].
  vm_compute. repeat (apply Forall_cons; split; [discriminate|]). apply Forall_nil_2.
Qed.

(** C3, on the failing input: the documented two-dish table at budget 25,
    which cannot pay for one dish of each category.  The program has no
    point; with a solver, exact and decisive, that leaves the Appetizer at
    one half and the Entree at 1, the call returns the Entree alone: a
    selection that is not empty and has no item of the category
    Appetizer. *)
Theorem optimize_menu_uncovered_category :
  exact (leaving half_appetizer)
  /\ decisive (leaving half_appetizer)
  /\ (forall vals,
        ~ feasible (menu_problem "R" (restaurant_rows scenario_items "R") 25) vals)
  /\ statuses (leaving half_appetizer) (optimize_menu scenario_items "R" 25)
     = [LpStatusInfeasible]
  /\ run (leaving half_appetizer) (optimize_menu scenario_items "R" 25)
     = Returned ([mkSelected "2" (Label "Entree") 20 "Medium" 60], Some (160 # 2))
  /\ Label "Appetizer" ∈ map MenuCategory (restaurant_rows scenario_items "R")
  /\ (Z.of_nat (count_category (Label "Appetizer")
                  [mkSelected "2" (Label "Entree") 20 "Medium" 60])
      < min_items_per_category)%Z.
Proof.
  split; [apply leaving_exact|]. split; [apply leaving_decisive|].
  split; [|split; [evaluate|split; [evaluate|split; [vm_compute; left|done]]]].
  apply infeasible_by_enumeration. by vm_compute.
Qed.

(** The free dish is selected by every exact and decisive solver, and
    the objective that comes with it is no number. *)
Lemma water_run (solve : LpProblem -> LpSolution) :
  exact solve -> decisive solve ->
  run solve (optimize_menu water_menu "R1" 50)
  = Returned ([mkSelected "Water" (Label "Drink") 0 "Low" 0], None).
Proof.
  intros Hexact Hdec. rewrite optimize_menu_run. cbn zeta.
  assert (restaurant_rows water_menu "R1" = water_menu) as -> by evaluate.
  set (prob := menu_problem "R1" water_menu 50).
  assert (optimal prob (solve prob).2) as [Hfeas _].
  { apply (solvable_optimal solve prob (exhaustive.solve prob).2); try done.
    apply exhaustive_exact. evaluate. }
  pose proof (feasible_category "R1" _ 50 _ (Label "Drink") Hfeas) as Hmin.
  fold prob in Hmin. unfold water_menu in *. rewrite !chosen_cons in *.
  cbn [MenuItem] in *.
  destruct (value_is_one (solve prob).2 (menu_var "Water")); [done|].
  exfalso. assert (1 <= 0)%Z; [|lia]. apply Hmin. vm_compute. left.
Qed.

(** C4, on the failing inputs.  A restaurant whose only dish is free: the
    objective has no term, every exact and decisive solver selects the dish
    and the objective value returned is none, while the recomputed sum is
    0.  And the documented table at budget 25: after the status
    [Infeasible] the code returns the value 80 of the objective at the
    values that were left, while the one selected item sells for 60. *)
Theorem optimize_menu_objective_mismatch :
  (forall solve, exact solve -> decisive solve ->
     run solve (optimize_menu water_menu "R1" 50)
     = Returned ([mkSelected "Water" (Label "Drink") 0 "Low" 0], None))
  /\ statuses exhaustive.solve (optimize_menu water_menu "R1" 50) = [LpStatusOptimal]
  /\ (sum_by sel_SellingPrice [mkSelected "Water" (Label "Drink") 0 "Low" 0] == 0)%Q
  /\ run (leaving half_appetizer) (optimize_menu scenario_items "R" 25)
     = Returned ([mkSelected "2" (Label "Entree") 20 "Medium" 60], Some (160 # 2))
  /\ (160 # 2 == 80)%Q
  /\ (sum_by sel_SellingPrice [mkSelected "2" (Label "Entree") 20 "Medium" 60] == 60)%Q.
Proof.
  split; [exact water_run|]. repeat split; by vm_compute.
Qed.

(** C5. Restaurant isolation: two tables that agree on the rows of the
    requested restaurant give the same program (the same problem is
    submitted and the same result is read back, whatever the solver), and
    every returned item comes from a row of the requested restaurant. *)
Theorem optimize_menu_isolation (df1 df2 : list MenuRow) (restaurant_id : string)
    (max_budget : Q) :
  restaurant_rows df1 restaurant_id = restaurant_rows df2 restaurant_id ->
  optimize_menu df1 restaurant_id max_budget = optimize_menu df2 restaurant_id max_budget
  /\ forall solve selected_items objective,
       run solve (optimize_menu df1 restaurant_id max_budget)
         = Returned (selected_items, objective) ->
       forall item, item ∈ selected_items ->
         exists row, row ∈ df1 /\ RestaurantID row = restaurant_id
                     /\ item = selected_item row.
Proof.
  intros Hsame. split.
  - unfold optimize_menu.
    change (filter (fun row => RestaurantID row = restaurant_id) df1)
      with (restaurant_rows df1 restaurant_id).
    change (filter (fun row => RestaurantID row = restaurant_id) df2)
      with (restaurant_rows df2 restaurant_id).
    by rewrite Hsame.
  - intros solve selected_items objective Hrun item Hitem.
    apply returned_inv in Hrun as [-> _].
    apply list_elem_of_fmap in Hitem as (row & -> & Hrow).
    apply list_elem_of_filter in Hrow as [_ Hrow].
    apply list_elem_of_filter in Hrow as [Hid Hrow].
    by exists row.
Qed.

Lemma optimize_menu_isolation_witness :
  optimize_menu sample_menu "R1" 30
  = optimize_menu
      (mkRow "R2" "Ramen" (Label "Soup") 1 "High" 4 :: filter (fun row => RestaurantID row = "R1") sample_menu)
      "R1" 30
  /\ forall solve selected_items objective,
       run solve (optimize_menu sample_menu "R1" 30)
         = Returned (selected_items, objective) ->
       forall item, item ∈ selected_items ->
         exists row, row ∈ sample_menu /\ RestaurantID row = "R1"
                     /\ item = selected_item row.
Proof.
  apply (optimize_menu_isolation sample_menu).
  evaluate.
Defined.

(** C6, as stated, fails: for a restaurant with no row in the table the
    call does not return at once.  Its first step is to submit a problem,
    one without variables, to the solver. *)
Lemma optimize_menu_empty_counterexample :
  restaurant_rows sample_menu "R9" = []
  /\ optimize_menu sample_menu "R9" 30 <> Ret ([], None)
  /\ (exists k, optimize_menu sample_menu "R9" 30
                = Solve (mkProblem "Menu_Optimization_R9" []
                                   [mkConstraint [] LpConstraintLE 30]) k)
  /\ (forall solve,
        submitted solve (optimize_menu sample_menu "R9" 30)
        = [mkProblem "Menu_Optimization_R9" [] [mkConstraint [] LpConstraintLE 30]]).
Proof.
  split; [by vm_compute|]. split; [|split].
  - intros H. vm_compute in H. discriminate H.
  - destruct (optimize_menu_unfold sample_menu "R9" 30) as (k & Hk & _).
    exists k. exact Hk.
  - intros solve. by rewrite optimize_menu_submitted.
Qed.

(** C6, amended: when no row matches the requested restaurant, the call
    still builds the model (no variable, an objective without terms, the
    budget constraint [0 <= max_budget], no category constraint) and
    submits it to the solver; whatever the solver answers, it then returns
    the empty selection and no objective value. *)
Theorem optimize_menu_empty (solve : LpProblem -> LpSolution) (df : list MenuRow)
    (restaurant_id : string) (max_budget : Q) :
  restaurant_rows df restaurant_id = [] ->
  submitted solve (optimize_menu df restaurant_id max_budget)
  = [mkProblem (problem_name restaurant_id) []
               [mkConstraint [] LpConstraintLE max_budget]]
  /\ run solve (optimize_menu df restaurant_id max_budget) = Returned ([], None).
Proof.
  intros Hnone. rewrite optimize_menu_submitted, optimize_menu_run, Hnone.
  by split.
Qed.

Lemma optimize_menu_empty_witness :
  submitted exhaustive.solve (optimize_menu sample_menu "R9" 30)
  = [mkProblem (problem_name "R9") [] [mkConstraint [] LpConstraintLE 30]]
  /\ run exhaustive.solve (optimize_menu sample_menu "R9" 30) = Returned ([], None).
Proof.
  apply (optimize_menu_empty exhaustive.solve sample_menu "R9" 30).
  evaluate.
Defined.

(** C7, as stated, fails: a negative budget and an unknown restaurant are
    both accepted.  In either case the first step of the call is to submit
    the model to the solver; the negative bound is the right-hand side of
    its budget constraint. *)
Lemma optimize_menu_invalid_counterexample :
  (-5 < 0)%Q
  /\ (exists k, optimize_menu sample_menu "R1" (-5)
                = Solve (menu_problem "R1" (restaurant_rows sample_menu "R1") (-5)) k)
  /\ map c_rhs (p_constraints
                  (menu_problem "R1" (restaurant_rows sample_menu "R1") (-5)))
     = [(-5)%Q; 1%Q; 1%Q]
  /\ restaurant_rows sample_menu "R9" = []
  /\ (exists k, optimize_menu sample_menu "R9" 30
                = Solve (mkProblem "Menu_Optimization_R9" []
                                   [mkConstraint [] LpConstraintLE 30]) k).
Proof.
  split; [by vm_compute|]. split; [|split; [by vm_compute|split; [by vm_compute|]]].
  - destruct (optimize_menu_unfold sample_menu "R1" (-5)) as (k & Hk & _).
    exists k. exact Hk.
  - destruct (optimize_menu_unfold sample_menu "R9" 30) as (k & Hk & _).
    exists k. exact Hk.
Qed.

(** C7, amended: [optimize_menu] validates nothing.  For every table,
    restaurant identifier and budget, well formed or not, it raises no
    error before the solve: its first step is to submit the model built
    from the request as given, with the budget as supplied on the
    right-hand side of the budget constraint, and that problem is the one
    problem it submits. *)
Theorem optimize_menu_no_validation (df : list MenuRow) (restaurant_id : string)
    (max_budget : Q) :
  (exists k,
     optimize_menu df restaurant_id max_budget
     = Solve (menu_problem restaurant_id (restaurant_rows df restaurant_id) max_budget) k)
  /\ (exists budget others,
        p_constraints
          (menu_problem restaurant_id (restaurant_rows df restaurant_id) max_budget)
        = budget :: others
        /\ c_sense budget = LpConstraintLE /\ c_rhs budget = max_budget)
  /\ forall solve,
       submitted solve (optimize_menu df restaurant_id max_budget)
       = [menu_problem restaurant_id (restaurant_rows df restaurant_id) max_budget].
Proof.
  split; [|split].
  - destruct (optimize_menu_unfold df restaurant_id max_budget) as (k & Hk & _).
    exists k. exact Hk.
  - by eexists _, _.
  - intros solve. apply optimize_menu_submitted.
Qed.

(** C8, as stated, fails: a variable whose solved value is 0.5 is not
    emitted, although 0.5 >= 0.5; the selection is empty while the
    objective counts half of the item's selling price (24 / 2 = 12). *)
Lemma extraction_threshold_counterexample :
  (half_solver (menu_problem "R2" (restaurant_rows sample_menu "R2") 30)).2
    !! menu_var "Pho" = Some (1 # 2)
  /\ (1 # 2 <= 1 # 2)%Q
  /\ run half_solver (optimize_menu sample_menu "R2" 30) = Returned ([], Some (24 # 2))
  /\ (24 # 2 == 12)%Q.
Proof. repeat split; by vm_compute. Qed.

(** C8, amended: a row of the restaurant is emitted into the selected
    items if and only if the solved value of its variable equals 1; a
    value that is unset, or any other number (0.5 or 0.99 included), leaves
    the row out. *)
Theorem extraction_rule (solve : LpProblem -> LpSolution) (df : list MenuRow)
    (restaurant_id : string) (max_budget : Q)
    (selected_items : list SelectedItem) (objective : option Q) :
  run solve (optimize_menu df restaurant_id max_budget)
    = Returned (selected_items, objective) ->
  forall item,
    item ∈ selected_items <->
    exists row x,
      row ∈ restaurant_rows df restaurant_id /\ item = selected_item row /\
      (solve (menu_problem restaurant_id (restaurant_rows df restaurant_id) max_budget)).2
        !! menu_var (MenuItem row) = Some x /\
      (x == 1)%Q.
Proof.
  intros Hrun item. apply returned_inv in Hrun as [-> _].
  rewrite list_elem_of_fmap. split.
  - intros (row & -> & Hrow). apply list_elem_of_filter in Hrow as [Hone Hrow].
    apply value_is_one_true in Hone as (x & Hx & Hx1). by exists row, x.
  - intros (row & x & Hrow & -> & Hx & Hx1). exists row. split; [done|].
    apply list_elem_of_filter. split; [|done].
    apply value_is_one_true. by exists x.
Qed.

Lemma extraction_rule_witness :
  run exhaustive.solve (optimize_menu sample_menu "R2" 30)
    = Returned ([mkSelected "Pho" (Label "Soup") 8 "Medium" 24], Some 24%Q)
  /\ (mkSelected "Pho" (Label "Soup") 8 "Medium" 24
        ∈ [mkSelected "Pho" (Label "Soup") 8 "Medium" 24] <->
      exists row x,
        row ∈ restaurant_rows sample_menu "R2" /\
        mkSelected "Pho" (Label "Soup") 8 "Medium" 24 = selected_item row /\
        (exhaustive.solve (menu_problem "R2" (restaurant_rows sample_menu "R2") 30)).2
          !! menu_var (MenuItem row) = Some x /\
        (x == 1)%Q).
Proof.
  assert (run exhaustive.solve (optimize_menu sample_menu "R2" 30)
          = Returned ([mkSelected "Pho" (Label "Soup") 8 "Medium" 24], Some 24%Q))
    as Hrun by (evaluate).
  split; [exact Hrun|].
  exact (extraction_rule exhaustive.solve sample_menu "R2" 30 _ _ Hrun
           (mkSelected "Pho" (Label "Soup") 8 "Medium" 24)).
Defined.

(** With a missing category among the rows no point of the model is
    feasible, so an exact solver never reports [Optimal]. *)
Lemma missing_category_never_optimal (solve : LpProblem -> LpSolution)
    (df : list MenuRow) (restaurant_id : string) (max_budget : Q) :
  exact solve ->
  NaN ∈ map MenuCategory (restaurant_rows df restaurant_id) ->
  ~ feasible_result solve df restaurant_id max_budget.
Proof.
  intros Hexact HNaN Hfeas.
  apply feasible_result_optimal in Hfeas as [Hfeas _]; [|done].
  by apply feasible_no_NaN in Hfeas.
Qed.

(** C9, on the failing input: one dish whose category cell is empty.  The
    missing label ([NaN]) is discovered as a category, but no row compares
    equal to it: the constraint built for it sums no variable ([0 >= 1]),
    so the dish stands in no category constraint and the constraint cannot
    be met.  No point satisfies the program and an exact solver never
    reports [Optimal].  With a blank string as label the constraint is
    over the dish's variable, as the claim has it. *)
Theorem missing_category_constraint :
  (forall solve,
     submitted solve (optimize_menu unlabelled_menu "R1" 100)
     = [mkProblem "Menu_Optimization_R1" [("item_Soup", 10%Q)]
          [ mkConstraint [("item_Soup", 5%Q)] LpConstraintLE 100;
            mkConstraint [] LpConstraintGE 1 ]])
  /\ (forall vals,
        ~ feasible (menu_problem "R1" (restaurant_rows unlabelled_menu "R1") 100) vals)
  /\ (forall solve, exact solve ->
        (solve (menu_problem "R1" (restaurant_rows unlabelled_menu "R1") 100)).1
        <> LpStatusOptimal)
  /\ (forall solve,
        submitted solve (optimize_menu blank_menu "R1" 100)
        = [mkProblem "Menu_Optimization_R1" [("item_Soup", 10%Q)]
             [ mkConstraint [("item_Soup", 5%Q)] LpConstraintLE 100;
               mkConstraint [("item_Soup", 1%Q)] LpConstraintGE 1 ]]).
Proof.
  assert (forall vals,
            ~ feasible (menu_problem "R1" (restaurant_rows unlabelled_menu "R1") 100)
                       vals) as Hnone.
  { intros vals Hfeas. apply feasible_no_NaN in Hfeas. apply Hfeas.
    vm_compute. left. }
  split; [|split; [exact Hnone|split]].
  - intros solve. by rewrite optimize_menu_submitted.
  - intros solve Hexact Hst. apply Hexact in Hst as [Hfeas _].
    by apply Hnone in Hfeas.
  - intros solve. by rewrite optimize_menu_submitted.
Qed.

(** C10, as stated, fails: a caller who wants two items per category
    cannot say so; the category constraints of the submitted problem keep
    the bound 1. *)
Lemma category_bound_counterexample :
  (0 < 2)%Z
  /\ exists p,
       submitted exhaustive.solve (optimize_menu sample_menu "R1" 30) = [p]
       /\ map c_rhs (tail (p_constraints p)) = [1%Q; 1%Q]
       /\ ~ (1 == inject_Z 2)%Q.
Proof.
  split; [done|]. eexists. split; [by vm_compute|]. split; [by vm_compute|].
  by vm_compute.
Qed.

(** C10, amended: the per-category lower bound is the literal 1 fixed
    inside [optimize_menu], which has no parameter for it; every category
    constraint of every submitted problem is [>= 1]. *)
Theorem category_bound_fixed (solve : LpProblem -> LpSolution) (df : list MenuRow)
    (restaurant_id : string) (max_budget : Q) (p : LpProblem) (c : LpConstraint) :
  p ∈ submitted solve (optimize_menu df restaurant_id max_budget) ->
  c ∈ tail (p_constraints p) ->
  c_sense c = LpConstraintGE /\ c_rhs c = 1%Q.
Proof.
  rewrite optimize_menu_submitted. intros Hp Hc.
  apply list_elem_of_singleton in Hp as ->.
  cbn [menu_problem p_constraints tail] in Hc.
  by apply list_elem_of_fmap in Hc as (cat & -> & _).
Qed.

Lemma category_bound_fixed_witness :
  c_sense (category_constraint (restaurant_rows sample_menu "R1") (Label "Entree"))
    = LpConstraintGE
  /\ c_rhs (category_constraint (restaurant_rows sample_menu "R1") (Label "Entree"))
     = 1%Q.
Proof.
  apply (category_bound_fixed exhaustive.solve sample_menu "R1" 30
           (menu_problem "R1" (restaurant_rows sample_menu "R1") 30)).
  - vm_compute. left.
  - vm_compute. right. left.
Defined.

(** A point of the program for a restaurant that has rows selects at
    least one of them: the first row's category needs a selected item. *)
Lemma feasible_chosen_nonempty (restaurant_id : string) (rows : list MenuRow)
    (max_budget : Q) (vals : gmap string Q) :
  feasible (menu_problem restaurant_id rows max_budget) vals ->
  rows <> [] -> map selected_item (chosen vals rows) <> [].
Proof.
  intros Hfeas Hrows Hsel. destruct rows as [|row rows]; [done|].
  pose proof (feasible_category restaurant_id _ max_budget _ (MenuCategory row) Hfeas)
    as Hmin.
  apply map_eq_nil in Hsel. rewrite Hsel in Hmin.
  unfold min_items_per_category in Hmin. simpl in Hmin.
  assert (1 <= 0)%Z by (apply Hmin; left). lia.
Qed.

(** When the solve reports [Optimal] for a restaurant that has rows, the
    selection is not empty. *)
Lemma feasible_result_nonempty (solve : LpProblem -> LpSolution) (df : list MenuRow)
    (restaurant_id : string) (max_budget : Q)
    (selected_items : list SelectedItem) (objective : option Q) :
  exact solve ->
  feasible_result solve df restaurant_id max_budget ->
  run solve (optimize_menu df restaurant_id max_budget)
    = Returned (selected_items, objective) ->
  restaurant_rows df restaurant_id <> [] ->
  selected_items <> [].
Proof.
  intros Hexact Hfeas Hrun Hrows.
  apply returned_inv in Hrun as [-> _].
  apply feasible_result_optimal in Hfeas as [Hfeas _]; [|done].
  by apply (feasible_chosen_nonempty restaurant_id _ max_budget).
Qed.

(** ** The documented scenarios *)

(** Budget 25 cannot pay for one dish of each category: the program has
    no point. *)
Example scenario_A :
  statuses exhaustive.solve (optimize_menu scenario_items "R" 25) = [LpStatusInfeasible]
  /\ forall vals,
       ~ feasible (menu_problem "R" (restaurant_rows scenario_items "R") 25) vals.
Proof.
  split; [evaluate|]. apply infeasible_by_enumeration. by vm_compute.
Qed.

Example scenario_B :
  statuses exhaustive.solve (optimize_menu scenario_items "R" 35) = [LpStatusOptimal]
  /\ run exhaustive.solve (optimize_menu scenario_items "R" 35)
     = Returned ([ mkSelected "1" (Label "Appetizer") 10 "High" 40;
                   mkSelected "2" (Label "Entree") 20 "Medium" 60 ],
                 Some 100%Q).
Proof. split; evaluate. Qed.

Example scenario_C :
  run exhaustive.solve (optimize_menu blank_menu "R1" 100)
  = Returned ([mkSelected "Soup" (Label "") 5 "Low" 10], Some 10%Q).
Proof. evaluate. Qed.

(** ** Loading: what [drop_duplicates] keeps *)

Lemma drop_duplicates_from_sublist (seen : gset (string * string)) (data : list MenuRow) :
  drop_duplicates_from seen data `sublist_of` data.
Proof.
  revert seen. induction data as [|row rest IH]; intros seen; simpl.
  - constructor.
  - destruct (decide (row_key row ∈ seen)).
    + by apply sublist_cons.
    + by apply sublist_skip.
Qed.

Lemma drop_duplicates_from_keys (seen : gset (string * string)) (data : list MenuRow)
    (k : string * string) :
  k ∈ map row_key (drop_duplicates_from seen data)
  <-> k ∈ map row_key data /\ k ∉ seen.
Proof.
  revert seen. induction data as [|row rest IH]; intros seen; simpl.
  - split; [by intros H%elem_of_nil|by intros [H%elem_of_nil _]].
  - destruct (decide (row_key row ∈ seen)) as [Hin|Hout].
    + rewrite IH, elem_of_cons. split; [tauto|].
      intros [[->|H] Hk]; tauto.
    + cbn [map]. rewrite !elem_of_cons, IH, elem_of_union, elem_of_singleton.
      destruct (decide (k = row_key row)) as [->|Hne]; tauto.
Qed.

Lemma drop_duplicates_from_NoDup (seen : gset (string * string)) (data : list MenuRow) :
  NoDup (map row_key (drop_duplicates_from seen data)).
Proof.
  revert seen. induction data as [|row rest IH]; intros seen; simpl.
  - constructor.
  - destruct (decide (row_key row ∈ seen)); [apply IH|].
    cbn [map]. apply NoDup_cons. split; [|apply IH].
    rewrite drop_duplicates_from_keys, elem_of_union, elem_of_singleton. tauto.
Qed.

Lemma drop_duplicates_from_first (seen : gset (string * string))
    (pre post : list MenuRow) (row : MenuRow) :
  row_key row ∉ seen -> row_key row ∉ map row_key pre ->
  row ∈ drop_duplicates_from seen (pre ++ row :: post)%list.
Proof.
  revert seen. induction pre as [|r pre IH]; intros seen Hseen Hpre; simpl.
  - rewrite decide_False by done. left.
  - cbn [map] in Hpre. apply not_elem_of_cons in Hpre as [Hne Hpre].
    destruct (decide (row_key r ∈ seen)); [by apply IH|].
    right. apply IH; [|done].
    rewrite elem_of_union, elem_of_singleton. tauto.
Qed.

Lemma drop_duplicates_from_fixed (seen : gset (string * string)) (data : list MenuRow) :
  NoDup (map row_key data) ->
  (forall k, k ∈ map row_key data -> k ∉ seen) ->
  drop_duplicates_from seen data = data.
Proof.
  revert seen. induction data as [|row rest IH]; intros seen Hnd Hseen; simpl; [done|].
  cbn [map] in Hnd. apply NoDup_cons in Hnd as [Hrow Hnd].
  rewrite decide_False by (apply Hseen; left). f_equal.
  apply IH; [done|]. intros k Hk.
  rewrite elem_of_union, elem_of_singleton. intros [->|Hin]; [done|].
  by apply (Hseen k); [right|].
Qed.

(** Filtering one restaurant only needs the seen keys of that restaurant. *)
Lemma drop_duplicates_from_restaurant (seen seen' : gset (string * string))
    (data : list MenuRow) (restaurant_id : string) :
  (forall item, (restaurant_id, item) ∈ seen <-> (restaurant_id, item) ∈ seen') ->
  restaurant_rows (drop_duplicates_from seen data) restaurant_id
  = drop_duplicates_from seen' (restaurant_rows data restaurant_id).
Proof.
  unfold restaurant_rows.
  revert seen seen'. induction data as [|row rest IH]; intros seen seen' Hsame; [done|].
  cbn [drop_duplicates_from]. rewrite filter_cons.
  destruct (decide (RestaurantID row = restaurant_id)) as [Hid|Hid].
  - cbn [drop_duplicates_from].
    assert (row_key row ∈ seen <-> row_key row ∈ seen') as Hrow
      by (unfold row_key; rewrite Hid; apply Hsame).
    destruct (decide (row_key row ∈ seen)) as [Hin|Hout].
    + rewrite decide_True by tauto. by apply IH.
    + rewrite decide_False by tauto. rewrite filter_cons_True by done. f_equal.
      apply IH. intros item. rewrite !elem_of_union, !elem_of_singleton.
      by rewrite Hsame.
  - destruct (decide (row_key row ∈ seen)) as [Hin|Hout]; [by apply IH|].
    rewrite filter_cons_False by done. apply IH.
    intros item. rewrite elem_of_union, elem_of_singleton, Hsame.
    unfold row_key. split; [|tauto]. intros [[= Heq _]|H]; [|done].
    by destruct Hid.
Qed.

Lemma restaurant_rows_NoDup (df : list MenuRow) (restaurant_id : string) :
  NoDup (map row_key df) -> NoDup (map MenuItem (restaurant_rows df restaurant_id)).
Proof.
  unfold restaurant_rows. induction df as [|row df IH]; intros Hnd; [constructor|].
  cbn [map] in Hnd. apply NoDup_cons in Hnd as [Hrow Hnd].
  rewrite filter_cons. destruct (decide (RestaurantID row = restaurant_id)) as [Hid|Hid];
    [|by apply IH].
  cbn [map]. apply NoDup_cons. split; [|by apply IH].
  intros Hin. apply Hrow.
  apply list_elem_of_fmap in Hin as (r & Hitem & Hr).
  apply list_elem_of_filter in Hr as [Hrid Hr].
  apply list_elem_of_fmap. exists r. split; [|done].
  unfold row_key. by rewrite Hitem, Hid, Hrid.
Qed.

(** X1. After [load_and_preprocess_data] no two rows share both
    [RestaurantID] and [MenuItem]; hence within any one restaurant the
    item names are pairwise distinct, so each row gets a decision variable
    of its own in [optimize_menu]. *)
Theorem load_distinct_items (read_excel : string -> list MenuRow)
    (restaurant_id : string) :
  NoDup (map row_key (load_and_preprocess_data read_excel))
  /\ NoDup (map MenuItem
              (restaurant_rows (load_and_preprocess_data read_excel) restaurant_id)).
Proof.
  assert (NoDup (map row_key (load_and_preprocess_data read_excel))) as Hnd
    by apply drop_duplicates_from_NoDup.
  split; [done|]. by apply restaurant_rows_NoDup.
Qed.

(** X2. [drop_duplicates] keeps the first row of each
    (RestaurantID, MenuItem) pair: the result is the sheet with rows
    removed (order kept), no pair of the sheet is lost, and a row that no
    earlier row duplicates is always kept. *)
Theorem drop_duplicates_keeps_first (data : list MenuRow) :
  drop_duplicates data `sublist_of` data
  /\ (forall k, k ∈ map row_key (drop_duplicates data) <-> k ∈ map row_key data)
  /\ (forall (pre post : list MenuRow) (row : MenuRow),
        data = (pre ++ row :: post)%list -> row_key row ∉ map row_key pre ->
        row ∈ drop_duplicates data).
Proof.
  split; [apply drop_duplicates_from_sublist|]. split.
  - intros k. unfold drop_duplicates. rewrite drop_duplicates_from_keys.
    split; [tauto|]. intros Hk. split; [done|]. apply not_elem_of_empty.
  - intros pre post row -> Hpre.
    apply drop_duplicates_from_first; [apply not_elem_of_empty|done].
Qed.

(** X3. Removing duplicates twice changes nothing more: a sheet that was
    already deduplicated comes back as it is. *)
Theorem drop_duplicates_idempotent (data : list MenuRow) :
  drop_duplicates (drop_duplicates data) = drop_duplicates data.
Proof.
  apply drop_duplicates_from_fixed; [apply drop_duplicates_from_NoDup|].
  intros k _. apply not_elem_of_empty.
Qed.

(** X4. Deduplication works restaurant by restaurant: the rows of one
    restaurant that survive are those that survive when that restaurant's
    rows are deduplicated alone; rows of other restaurants never cause a
    row to be dropped. *)
Theorem drop_duplicates_per_restaurant (data : list MenuRow) (restaurant_id : string) :
  restaurant_rows (drop_duplicates data) restaurant_id
  = drop_duplicates (restaurant_rows data restaurant_id).
Proof. by apply drop_duplicates_from_restaurant. Qed.

(** ** Selling prices: errors and results of [calculate_selling_price] *)

Lemma profit_weights_lookup (tier : string) (w : Q) :
  profit_weights !! tier = Some w
  <-> (tier = "Low" /\ w = 2%Q) \/ (tier = "Medium" /\ w = 3%Q)
      \/ (tier = "High" /\ w = 4%Q).
Proof.
  unfold profit_weights.
  destruct (decide (tier = "Low")) as [->|HL].
  { rewrite lookup_insert_eq. split.
    - intros [= <-]. by left.
    - intros [[_ ->]|[[? _]|[? _]]]; done. }
  rewrite lookup_insert_ne by done.
  destruct (decide (tier = "Medium")) as [->|HM].
  { rewrite lookup_insert_eq. split.
    - intros [= <-]. right. by left.
    - intros [[? _]|[[_ ->]|[? _]]]; done. }
  rewrite lookup_insert_ne by done.
  destruct (decide (tier = "High")) as [->|HH].
  { rewrite lookup_singleton_eq. split.
    - intros [= <-]. right. by right.
    - intros [[? _]|[[? _]|[_ ->]]]; done. }
  rewrite lookup_singleton_ne by done. split; [done|].
  intros [[? _]|[[? _]|[? _]]]; done.
Qed.

Lemma known_tier_iff (x : MenuRow) :
  known_tier x <-> Profitability x ∈ ["Low"; "Medium"; "High"].
Proof.
  unfold known_tier, is_Some. rewrite !elem_of_cons. split.
  - intros (w & Hw). apply profit_weights_lookup in Hw. tauto.
  - intros [H|[H|[H|H%elem_of_nil]]]; [exists 2%Q|exists 3%Q|exists 4%Q|done];
      apply profit_weights_lookup; tauto.
Qed.

Lemma selling_price_column_cons (x : MenuRow) (df : list MenuRow) (w : Q) :
  profit_weights !! Profitability x = Some w ->
  selling_price_column (x :: df)
  = bind (selling_price_column df) (fun priced => Ret (reprice x :: priced)).
Proof.
  intros Hw. unfold selling_price_column, getitem, reprice. simpl.
  by rewrite Hw.
Qed.

(** The two ways the column can be computed: every tier is known and the
    table comes back repriced, or the first unknown tier is raised as a
    [KeyError]. *)
Lemma selling_price_column_cases (df : list MenuRow) :
  (Forall known_tier df /\ selling_price_column df = Ret (map reprice df))
  \/ (exists (pre post : list MenuRow) (x : MenuRow),
        df = (pre ++ x :: post)%list /\ Forall known_tier pre /\ ~ known_tier x /\
        selling_price_column df = Raise (KeyError (Profitability x))).
Proof.
  induction df as [|x df IH].
  - left. by split.
  - destruct (profit_weights !! Profitability x) as [w|] eqn:Hw.
    + rewrite (selling_price_column_cons x df w Hw).
      destruct IH as [[Hall ->]|(pre & post & y & -> & Hpre & Hy & ->)].
      * left. split; [|done]. apply Forall_cons. split; [by exists w|done].
      * right. exists (x :: pre), post, y. repeat split; try done.
        apply Forall_cons. split; [by exists w|done].
    + right. exists [], df, x. repeat split; try done.
      * unfold known_tier. rewrite Hw. by intros [? ?].
      * by apply selling_price_column_unknown.
Qed.

(** The three ways a call can end. *)
Lemma calculate_selling_price_cases (df : list MenuRow) :
  (df = [] /\ calculate_selling_price df = Raise ValueError)
  \/ (df <> [] /\ Forall known_tier df
      /\ calculate_selling_price df = Ret (map reprice df))
  \/ (exists (pre post : list MenuRow) (x : MenuRow),
        df = (pre ++ x :: post)%list /\ Forall known_tier pre /\ ~ known_tier x /\
        calculate_selling_price df = Raise (KeyError (Profitability x))).
Proof.
  destruct df as [|x df]; [by left|]. right.
  change (calculate_selling_price (x :: df)) with (selling_price_column (x :: df)).
  destruct (selling_price_column_cases (x :: df)) as [[Hall Hret]|Hraise];
    [by left|by right].
Qed.

Lemma calculate_selling_price_ret (df priced : list MenuRow) :
  calculate_selling_price df = Ret priced ->
  df <> [] /\ Forall known_tier df /\ priced = map reprice df.
Proof.
  destruct (calculate_selling_price_cases df)
    as [[_ ->]|[(Hne & Hall & ->)|(pre & post & x & _ & _ & _ & ->)]]; try done.
  by intros [= <-].
Qed.

(** The first row with an unknown tier is the same however the table is
    cut. *)
Lemma first_unknown_unique (pre post pre' post' : list MenuRow) (x x' : MenuRow) :
  (pre ++ x :: post)%list = (pre' ++ x' :: post')%list ->
  Forall known_tier pre -> ~ known_tier x ->
  Forall known_tier pre' -> ~ known_tier x' ->
  x = x'.
Proof.
  revert pre'. induction pre as [|r pre IH]; intros [|r' pre'] Heq Hpre Hx Hpre' Hx'.
  - by injection Heq.
  - injection Heq as -> _. apply Forall_cons in Hpre' as [Hr _]. by destruct Hx.
  - injection Heq as -> _. apply Forall_cons in Hpre as [Hr _]. by destruct Hx'.
  - injection Heq as -> Hrest.
    apply Forall_cons in Hpre as [_ Hpre].
    apply Forall_cons in Hpre' as [_ Hpre']. by apply (IH pre').
Qed.

Lemma reprice_same (x : MenuRow) : same_but_selling_price x (reprice x).
Proof. by repeat split. Qed.

Lemma reprice_priced_by_tier (x : MenuRow) :
  known_tier x -> priced_by_tier x (reprice x).
Proof.
  intros (w & Hw). unfold priced_by_tier, reprice. cbn [SellingPrice]. rewrite Hw.
  apply profit_weights_lookup in Hw as [[-> ->]|[[-> ->]|[-> ->]]]; tauto.
Qed.

Lemma reprice_bounds (x : MenuRow) :
  known_tier x -> (0 <= Price x)%Q ->
  (2 * Price x <= SellingPrice (reprice x))%Q
  /\ (SellingPrice (reprice x) <= 4 * Price x)%Q.
Proof.
  intros Hx Hprice.
  destruct (reprice_priced_by_tier x Hx) as [[_ ->]|[[_ ->]|[_ ->]]]; split; lra.
Qed.

(** X5. [calculate_selling_price] returns a table exactly when the table
    has a row and every row's [Profitability] is Low, Medium or High.  On
    a table without rows it raises [ValueError].  Otherwise it raises
    [KeyError], and the key it reports is the tier of the first row whose
    tier is not one of the three. *)
Theorem calculate_selling_price_errors (df : list MenuRow) :
  ((exists priced, calculate_selling_price df = Ret priced)
   <-> df <> [] /\ Forall (fun x => Profitability x ∈ ["Low"; "Medium"; "High"]) df)
  /\ (calculate_selling_price df = Raise ValueError <-> df = [])
  /\ (forall key,
        calculate_selling_price df = Raise (KeyError key)
        <-> exists (pre post : list MenuRow) (x : MenuRow),
              df = (pre ++ x :: post)%list
              /\ Forall (fun r => Profitability r ∈ ["Low"; "Medium"; "High"]) pre
              /\ (Profitability x ∉ ["Low"; "Medium"; "High"])
              /\ Profitability x = key).
Proof.
  assert (forall l, Forall known_tier l
                    <-> Forall (fun x => Profitability x ∈ ["Low"; "Medium"; "High"]) l)
    as Hknown.
  { intros l. rewrite !Forall_forall. split; intros H x Hx; apply known_tier_iff; auto. }
  destruct (calculate_selling_price_cases df)
    as [[-> Hraise]|[(Hne & Hall & Hret)
                    |(pre & post & x & Hdf & Hpre & Hx & Hraise)]].
  - rewrite Hraise. split; [|split].
    + split; [by intros [? ?]|by intros [? _]].
    + done.
    + intros key. split; [done|]. intros (pre & post & x & Hdf & _).
      by destruct pre.
  - rewrite Hret. split; [|split].
    + split; [intros _; split; [done|by apply Hknown]|intros _; eauto].
    + done.
    + intros key. split; [done|].
      intros (pre & post & x & -> & _ & Hx & _). exfalso. apply Hx.
      apply known_tier_iff. rewrite Forall_forall in Hall. apply Hall.
      apply elem_of_app. right. left.
  - rewrite Hraise. split; [|split].
    + split; [by intros [? ?]|].
      intros [_ Hall%Hknown]. exfalso. apply Hx.
      rewrite Forall_forall in Hall. apply Hall. subst df.
      apply elem_of_app. right. left.
    + split; [done|]. intros ->. by destruct pre.
    + intros key. split.
      * intros [= <-]. exists pre, post, x. repeat split; try done.
        -- by apply Hknown.
        -- by rewrite <- known_tier_iff.
      * intros (pre' & post' & x' & Hdf' & Hpre' & Hx' & <-).
        do 2 f_equal. apply Hknown in Hpre'. rewrite <- known_tier_iff in Hx'.
        rewrite Hdf in Hdf'.
        by rewrite (first_unknown_unique pre post pre' post' x x').
Qed.

(** X6. When it returns, [calculate_selling_price] gives back the same
    rows in the same order, each unchanged except for its [SellingPrice],
    which is the price times 2, 3 or 4 for the tiers Low, Medium and
    High. *)
Theorem calculate_selling_price_rows (df priced : list MenuRow) :
  calculate_selling_price df = Ret priced ->
  Forall2 (fun x y => same_but_selling_price x y /\ priced_by_tier x y) df priced.
Proof.
  intros (_ & Hall & ->)%calculate_selling_price_ret.
  apply Forall2_fmap_r, Forall_Forall2_diag.
  eapply Forall_impl; [exact Hall|]. intros x Hx. split.
  - apply reprice_same.
  - by apply reprice_priced_by_tier.
Qed.

Lemma calculate_selling_price_rows_witness :
  Forall2 (fun x y => same_but_selling_price x y /\ priced_by_tier x y)
          scenario_raw scenario_items.
Proof. apply calculate_selling_price_rows. evaluate. Defined.

Lemma reprice_ext (x y : MenuRow) :
  same_but_selling_price x y -> reprice y = reprice x.
Proof.
  intros (H1 & H2 & H3 & H4 & H5). unfold reprice. by rewrite H1, H2, H3, H4, H5.
Qed.

Lemma known_tier_ext (x y : MenuRow) :
  same_but_selling_price x y -> known_tier x -> known_tier y.
Proof. intros (_ & _ & _ & _ & H5). unfold known_tier. by rewrite H5. Qed.

Lemma selling_price_column_derived (df df' : list MenuRow) :
  Forall2 same_but_selling_price df df' ->
  selling_price_column df' = selling_price_column df.
Proof.
  induction 1 as [|x y df df' Hxy _ IH]; [done|].
  pose proof Hxy as (_ & _ & _ & _ & Htier).
  destruct (profit_weights !! Profitability x) as [w|] eqn:Hw.
  - rewrite (selling_price_column_cons x df w Hw).
    rewrite (selling_price_column_cons y df' w) by by rewrite Htier.
    by rewrite IH, (reprice_ext x y).
  - rewrite !selling_price_column_unknown by by rewrite ?Htier.
    by rewrite Htier.
Qed.

(** X7. Pricing a priced table again gives the same table: the selling
    price is recomputed from price and tier, never compounded. *)
Theorem calculate_selling_price_idempotent (df priced : list MenuRow) :
  calculate_selling_price df = Ret priced ->
  calculate_selling_price priced = Ret priced.
Proof.
  intros (Hne & Hall & ->)%calculate_selling_price_ret.
  destruct (calculate_selling_price_cases (map reprice df))
    as [[Hnil _]|[(_ & _ & ->)|(pre & post & x & Hdf & _ & Hx & _)]].
  - apply fmap_nil_inv in Hnil. by destruct Hne.
  - f_equal. rewrite map_map. apply map_ext. intros x.
    apply reprice_ext, reprice_same.
  - exfalso. apply Hx.
    assert (x ∈ map reprice df) as Hin
      by (rewrite Hdf; apply elem_of_app; right; left).
    apply list_elem_of_fmap in Hin as (x0 & -> & Hx0).
    apply (known_tier_ext x0); [apply reprice_same|].
    rewrite Forall_forall in Hall. by apply Hall.
Qed.

Lemma calculate_selling_price_idempotent_witness :
  calculate_selling_price scenario_items = Ret scenario_items.
Proof. apply (calculate_selling_price_idempotent scenario_raw). evaluate. Defined.

(** X8. The selling price is always derived: two tables that differ only
    in their [SellingPrice] column give the same result, or raise the same
    error. *)
Theorem calculate_selling_price_derived (df df' : list MenuRow) :
  Forall2 same_but_selling_price df df' ->
  calculate_selling_price df' = calculate_selling_price df.
Proof.
  intros Hsame. pose proof (selling_price_column_derived df df' Hsame) as Hcol.
  by destruct Hsame.
Qed.

Lemma calculate_selling_price_derived_witness :
  calculate_selling_price scenario_items = calculate_selling_price scenario_raw.
Proof.
  apply calculate_selling_price_derived.
  repeat (apply Forall2_cons; split; [by repeat split|]). apply Forall2_nil_2.
Defined.

(** X9. A row priced by [calculate_selling_price] whose price is not
    negative sells for at least twice and at most four times its price. *)
Theorem calculate_selling_price_bounds (df priced : list MenuRow) (y : MenuRow) :
  calculate_selling_price df = Ret priced ->
  y ∈ priced -> (0 <= Price y)%Q ->
  (2 * Price y <= SellingPrice y)%Q /\ (SellingPrice y <= 4 * Price y)%Q.
Proof.
  intros (_ & Hknown & ->)%calculate_selling_price_ret Hy Hprice.
  apply list_elem_of_fmap in Hy as (x & -> & Hx).
  rewrite Forall_forall in Hknown.
  exact (reprice_bounds x (Hknown x Hx) Hprice).
Qed.

Lemma calculate_selling_price_bounds_witness :
  (2 * 20 <= 60)%Q /\ (60 <= 4 * 20)%Q.
Proof.
  apply (calculate_selling_price_bounds scenario_raw scenario_items
           (mkRow "R" "2" (Label "Entree") 20 "Medium" 60)).
  - evaluate.
  - right. left.
  - by vm_compute.
Defined.

(** ** More on the selection that [optimize_menu] returns *)

(** X10. Whatever the solver answers, the returned items are rows of the
    table, all of the requested restaurant, listed in table order and each
    row at most once. *)
Theorem selection_in_table_order (solve : LpProblem -> LpSolution) (df : list MenuRow)
    (restaurant_id : string) (max_budget : Q) :
  exists rows objective,
    run solve (optimize_menu df restaurant_id max_budget)
      = Returned (map selected_item rows, objective)
    /\ rows `sublist_of` df
    /\ Forall (fun row => RestaurantID row = restaurant_id) rows.
Proof.
  rewrite optimize_menu_run. eexists _, _. split; [done|]. split.
  - etrans; apply sublist_filter.
  - apply Forall_forall. intros row Hrow.
    apply list_elem_of_filter in Hrow as [_ Hrow].
    by apply list_elem_of_filter in Hrow as [Hid _].
Qed.

Lemma feasible_budget_weaken (restaurant_id : string) (rows : list MenuRow)
    (b b' : Q) (vals : gmap string Q) :
  (b <= b')%Q ->
  feasible (menu_problem restaurant_id rows b) vals ->
  feasible (menu_problem restaurant_id rows b') vals.
Proof.
  intros Hle [Hbin Hcons]. split; [exact Hbin|].
  cbn [menu_problem p_constraints] in *.
  apply Forall_cons in Hcons as [(lhs & Hlhs & Hb) Hcats].
  apply Forall_cons. split; [|done].
  exists lhs. split; [done|].
  cbn [budget_constraint c_sense c_rhs sense_holds] in *. lra.
Qed.

(** X11. A larger budget never lowers the result: for a restaurant with
    a dish that sells for more than nothing and an exact solver that
    reports [Optimal] at both budgets, the objective returned at the larger
    budget is at least the one returned at the smaller. *)
Theorem objective_grows_with_budget (solve : LpProblem -> LpSolution)
    (df : list MenuRow) (restaurant_id : string) (b b' : Q)
    (items items' : list SelectedItem) (objective objective' : option Q) :
  exact solve ->
  (b <= b')%Q ->
  has_selling_price (restaurant_rows df restaurant_id) ->
  feasible_result solve df restaurant_id b ->
  feasible_result solve df restaurant_id b' ->
  run solve (optimize_menu df restaurant_id b) = Returned (items, objective) ->
  run solve (optimize_menu df restaurant_id b') = Returned (items', objective') ->
  exists q q', objective = Some q /\ objective' = Some q' /\ (q <= q')%Q.
Proof.
  intros Hexact Hle Hsome Hfeas Hfeas' Hrun Hrun'.
  apply returned_inv in Hrun as [_ ->]. apply returned_inv in Hrun' as [_ ->].
  rewrite !objective_value_terms by done.
  apply feasible_result_optimal in Hfeas as [Hfeas _]; [|done].
  apply feasible_result_optimal in Hfeas' as [Hfeas' Hmax]; [|done].
  set (rows := restaurant_rows df restaurant_id) in *.
  destruct (feasible_objective restaurant_id rows b _ Hfeas) as (q & Hq & _).
  destruct (feasible_objective restaurant_id rows b' _ Hfeas') as (q' & Hq' & _).
  exists q, q'. repeat split; try done.
  eapply Hmax; [|exact Hq'|exact Hq].
  by apply (feasible_budget_weaken restaurant_id rows b b').
Qed.

Lemma objective_grows_with_budget_witness :
  exists items items' objective objective',
    run exhaustive.solve (optimize_menu sample_menu "R1" 30) = Returned (items, objective)
    /\ run exhaustive.solve (optimize_menu sample_menu "R1" 35)
       = Returned (items', objective')
    /\ exists q q', objective = Some q /\ objective' = Some q' /\ (q <= q')%Q.
Proof.
  eexists _, _, _, _. split; [evaluate|]. split; [evaluate|].
  eapply (objective_grows_with_budget exhaustive.solve sample_menu "R1" 30 35).
  - apply exhaustive_exact.
  - by vm_compute.
  - apply Exists_cons_hd. by vm_compute.
  - evaluate.
  - evaluate.
  - evaluate.
  - evaluate.
Defined.

Lemma sum_by_elem_le {A : Type} (f : A -> Q) (l : list A) (x : A) :
  Forall (fun a => 0 <= f a)%Q l -> x ∈ l -> (f x <= sum_by f l)%Q.
Proof.
  induction 1 as [|a l Ha Hl IH]; intros Hx; [by apply elem_of_nil in Hx|].
  cbn [sum_by foldr]. fold (sum_by f l).
  assert (0 <= sum_by f l)%Q as Hsum.
  { clear IH Hx. induction Hl as [|b l Hb _ IH]; cbn [sum_by foldr]; [lra|].
    fold (sum_by f l). lra. }
  apply elem_of_cons in Hx as [->|Hx]; [lra|]. specialize (IH Hx). lra.
Qed.

(** X12. A feasible result needs an affordable dish in every category:
    when no price is negative and an exact solver reports a feasible
    (optimal) result, each category of the restaurant has a dish whose
    price is within the budget. *)
Theorem feasible_needs_affordable_dish (solve : LpProblem -> LpSolution)
    (df : list MenuRow) (restaurant_id : string) (max_budget : Q) (c : category) :
  exact solve ->
  Forall (fun row => 0 <= Price row)%Q (restaurant_rows df restaurant_id) ->
  feasible_result solve df restaurant_id max_budget ->
  c ∈ map MenuCategory (restaurant_rows df restaurant_id) ->
  exists row, row ∈ restaurant_rows df restaurant_id
              /\ MenuCategory row = c /\ (Price row <= max_budget)%Q.
Proof.
  intros Hexact Hprices Hfeas Hc.
  apply feasible_result_optimal in Hfeas as [Hfeas _]; [|done].
  set (rows := restaurant_rows df restaurant_id) in *.
  set (vals := (solve (menu_problem restaurant_id rows max_budget)).2) in *.
  pose proof (feasible_category restaurant_id rows max_budget vals c Hfeas Hc) as Hmin.
  pose proof (feasible_budget restaurant_id rows max_budget vals Hfeas) as Hbudget.
  destruct (in_category c (chosen vals rows)) as [|row others] eqn:E.
  { unfold min_items_per_category in Hmin. simpl in Hmin. lia. }
  assert (row ∈ in_category c (chosen vals rows)) as Hrow by (rewrite E; left).
  apply list_elem_of_filter in Hrow as [Hcat Hrow].
  exists row. split; [by apply list_elem_of_filter in Hrow as [_ ?]|].
  split; [by apply py_eq_true|].
  apply Qle_trans with (sum_by Price (chosen vals rows)); [|exact Hbudget].
  apply (sum_by_elem_le Price); [|done].
  rewrite Forall_forall in Hprices. apply Forall_forall.
  intros r Hr. apply Hprices. by apply list_elem_of_filter in Hr as [_ ?].
Qed.

Lemma feasible_needs_affordable_dish_witness :
  exists row, row ∈ restaurant_rows sample_menu "R1"
              /\ MenuCategory row = Label "Entree" /\ (Price row <= 30)%Q.
Proof.
  apply (feasible_needs_affordable_dish exhaustive.solve sample_menu "R1" 30).
  - apply exhaustive_exact.
  - vm_compute. repeat (apply Forall_cons; split; [discriminate|]). apply Forall_nil_2.
  - evaluate.
  - vm_compute. do 2 right. left.
Defined.

Lemma filter_all_elem {A : Type} (P : A -> Prop) `{!forall x, Decision (P x)}
    (l : list A) :
  (forall x, x ∈ l -> P x) -> filter P l = l.
Proof.
  induction l as [|a l IH]; intros Hall; [done|].
  rewrite filter_cons_True by (apply Hall; left). f_equal.
  apply IH. intros x Hx. apply Hall. by right.
Qed.

Lemma chosen_indicator_all (rows : list MenuRow) :
  chosen (indicator rows rows) rows = rows.
Proof.
  apply filter_all_elem. intros row Hrow.
  apply indicator_is_one; [done|]. apply list_elem_of_fmap. by exists row.
Qed.

Lemma in_category_present (c : category) (rows : list MenuRow) :
  c ∈ map MenuCategory rows -> c <> NaN -> (1 <= length (in_category c rows))%nat.
Proof.
  intros Hc Hne. apply list_elem_of_fmap in Hc as (row & -> & Hrow).
  assert (row ∈ in_category (MenuCategory row) rows) as Hin.
  { apply list_elem_of_filter. split; [|done].
    destruct (MenuCategory row) as [s|]; [|done]. by apply py_eq_Label. }
  destruct (in_category (MenuCategory row) rows); [by apply elem_of_nil in Hin|].
  simpl. lia.
Qed.

(** Selecting every row is a point of the program when the budget pays
    for all of them and no category is missing. *)
Lemma indicator_all_feasible (restaurant_id : string) (rows : list MenuRow)
    (max_budget : Q) :
  NaN ∉ map MenuCategory rows ->
  (sum_by Price rows <= max_budget)%Q ->
  feasible (menu_problem restaurant_id rows max_budget) (indicator rows rows).
Proof.
  intros HNaN Hbudget. split.
  - apply Forall_forall. intros v Hv.
    apply variables_menu_problem in Hv as (row & Hrow & ->).
    by apply indicator_binary.
  - cbn [menu_problem p_constraints]. apply Forall_cons. split.
    + destruct (value_terms_chosen (indicator rows rows) Price rows)
        as (q & Hq & Hsum); [apply indicator_binary|].
      exists q. split; [done|]. cbn [budget_constraint c_sense c_rhs sense_holds].
      by rewrite Hsum, chosen_indicator_all.
    + apply Forall_forall. intros k Hk.
      apply list_elem_of_fmap in Hk as (c & -> & Hc).
      apply (proj1 (elem_of_unique _ _)) in Hc.
      destruct (value_unit_terms_chosen (indicator rows rows) (in_category c rows))
        as (q & Hq & Hsum).
      { eapply rows_binary_subseteq; [apply in_category_subseteq|].
        apply indicator_binary. }
      exists q. split; [done|]. cbn [category_constraint c_sense c_rhs sense_holds].
      rewrite Hsum, chosen_in_category, chosen_indicator_all.
      rewrite <- Zle_Qle. unfold min_items_per_category.
      assert (c <> NaN) as Hne by (intros ->; done).
      pose proof (in_category_present c rows Hc Hne). lia.
Qed.

Lemma sum_by_filter_le {A : Type} (f : A -> Q) (P : A -> Prop)
    `{!forall x, Decision (P x)} (l : list A) :
  Forall (fun a => 0 <= f a)%Q l -> (sum_by f (filter P l) <= sum_by f l)%Q.
Proof.
  induction 1 as [|a l Ha _ IH]; [cbn; lra|].
  rewrite filter_cons. destruct (decide (P a)); cbn [sum_by foldr];
    fold (sum_by f l); fold (sum_by f (filter P l)); lra.
Qed.

(** X13. With a budget that pays for every dish of the restaurant, no
    negative selling price and a dish that sells for more than nothing, the
    result of an exact solver that reports [Optimal] is worth the whole
    menu: the returned objective is the sum of all the restaurant's selling
    prices. *)
Theorem ample_budget_takes_all (solve : LpProblem -> LpSolution) (df : list MenuRow)
    (restaurant_id : string) (max_budget : Q)
    (selected_items : list SelectedItem) (objective : option Q) :
  exact solve ->
  feasible_result solve df restaurant_id max_budget ->
  run solve (optimize_menu df restaurant_id max_budget)
    = Returned (selected_items, objective) ->
  Forall (fun row => 0 <= SellingPrice row)%Q (restaurant_rows df restaurant_id) ->
  has_selling_price (restaurant_rows df restaurant_id) ->
  (sum_by Price (restaurant_rows df restaurant_id) <= max_budget)%Q ->
  exists q, objective = Some q
            /\ (q == sum_by SellingPrice (restaurant_rows df restaurant_id))%Q.
Proof.
  intros Hexact Hfeas Hrun Hsell Hsome Hbudget.
  apply returned_inv in Hrun as [_ ->].
  rewrite objective_value_terms by done.
  apply feasible_result_optimal in Hfeas as [Hfeas Hmax]; [|done].
  set (rows := restaurant_rows df restaurant_id) in *.
  destruct (feasible_objective restaurant_id rows max_budget _ Hfeas)
    as (q & Hq & Hsum).
  exists q. split; [done|].
  assert (feasible (menu_problem restaurant_id rows max_budget) (indicator rows rows))
    as Hall by (apply indicator_all_feasible; [by eapply feasible_no_NaN|done]).
  destruct (feasible_objective restaurant_id rows max_budget _ Hall)
    as (q' & Hq' & Hsum').
  rewrite chosen_indicator_all in Hsum'.
  pose proof (Hmax _ q q' Hall Hq Hq') as Hge.
  pose proof (sum_by_filter_le SellingPrice
                (fun row => value_is_one
                   (solve (menu_problem restaurant_id rows max_budget)).2
                   (menu_var (MenuItem row)) = true) rows Hsell) as Hle.
  fold (chosen (solve (menu_problem restaurant_id rows max_budget)).2 rows) in Hle.
  apply Qle_antisym; [by rewrite Hsum|by rewrite <- Hsum'].
Qed.

Lemma ample_budget_takes_all_witness :
  exists selected_items objective,
    run exhaustive.solve (optimize_menu sample_menu "R1" 35)
      = Returned (selected_items, objective)
    /\ exists q, objective = Some q
                 /\ (q == sum_by SellingPrice (restaurant_rows sample_menu "R1"))%Q.
Proof.
  eexists _, _. split; [evaluate|].
  eapply (ample_budget_takes_all exhaustive.solve sample_menu "R1" 35).
  - apply exhaustive_exact.
  - evaluate.
  - evaluate.
  - vm_compute. repeat (apply Forall_cons; split; [discriminate|]). apply Forall_nil_2.
  - apply Exists_cons_hd. by vm_compute.
  - by vm_compute.
Defined.

(** X14. Rows of one restaurant that carry the same [MenuItem] share one
    decision variable: whatever the solver answers, they are returned
    together or not at all. *)
Theorem same_item_same_fate (solve : LpProblem -> LpSolution) (df : list MenuRow)
    (restaurant_id : string) (max_budget : Q)
    (selected_items : list SelectedItem) (objective : option Q) (r1 r2 : MenuRow) :
  run solve (optimize_menu df restaurant_id max_budget)
    = Returned (selected_items, objective) ->
  r1 ∈ restaurant_rows df restaurant_id ->
  r2 ∈ restaurant_rows df restaurant_id ->
  MenuItem r1 = MenuItem r2 ->
  selected_item r1 ∈ selected_items <-> selected_item r2 ∈ selected_items.
Proof.
  intros Hrun H1 H2 Hsame. apply returned_inv in Hrun as [-> _].
  assert (forall a b, a ∈ restaurant_rows df restaurant_id ->
                      b ∈ restaurant_rows df restaurant_id ->
                      MenuItem a = MenuItem b ->
                      selected_item a ∈ map selected_item
                        (chosen (solve (menu_problem restaurant_id
                                          (restaurant_rows df restaurant_id)
                                          max_budget)).2
                                (restaurant_rows df restaurant_id)) ->
                      selected_item b ∈ map selected_item
                        (chosen (solve (menu_problem restaurant_id
                                          (restaurant_rows df restaurant_id)
                                          max_budget)).2
                                (restaurant_rows df restaurant_id))) as Hdir.
  { intros a b Ha Hb Hab Hin.
    apply list_elem_of_fmap in Hin as (r & Hr & Hchosen).
    apply list_elem_of_filter in Hchosen as [Hone _].
    assert (MenuItem r = MenuItem a) as Hra by by injection Hr.
    apply list_elem_of_fmap. exists b. split; [done|].
    apply list_elem_of_filter. split; [|done]. by rewrite <- Hab, <- Hra. }
  split; eauto.
Qed.

Lemma same_item_same_fate_witness :
  exists selected_items objective,
    run exhaustive.solve (optimize_menu repeated_menu "R1" 45)
      = Returned (selected_items, objective)
    /\ (selected_item (mkRow "R1" "Bruschetta" (Label "Appetizer") 10 "High" 40)
          ∈ selected_items
        <-> selected_item (mkRow "R1" "Bruschetta" (Label "Appetizer") 12 "Low" 24)
              ∈ selected_items).
Proof.
  eexists _, _. split; [evaluate|].
  eapply (same_item_same_fate exhaustive.solve repeated_menu "R1" 45).
  - evaluate.
  - vm_compute. left.
  - vm_compute. do 2 right. left.
  - reflexivity.
Defined.

(** X15. One missing category cell spoils the whole restaurant: if any
    row of the requested restaurant has an empty [MenuCategory], an exact
    solver reports no feasible result, whatever the budget. *)
Theorem missing_category_any_budget (solve : LpProblem -> LpSolution)
    (df : list MenuRow) (restaurant_id : string) :
  exact solve ->
  NaN ∈ map MenuCategory (restaurant_rows df restaurant_id) ->
  forall max_budget, ~ feasible_result solve df restaurant_id max_budget.
Proof.
  intros Hexact HNaN max_budget Hfeas.
  apply feasible_result_optimal in Hfeas as [Hfeas _]; [|done].
  by apply feasible_no_NaN in Hfeas.
Qed.

Lemma missing_category_any_budget_witness :
  NaN ∈ map MenuCategory (restaurant_rows unlabelled_menu "R1")
  /\ forall max_budget, ~ feasible_result exhaustive.solve unlabelled_menu "R1" max_budget.
Proof.
  assert (NaN ∈ map MenuCategory (restaurant_rows unlabelled_menu "R1")) as HNaN
    by (vm_compute; left).
  split; [exact HNaN|].
  exact (missing_category_any_budget exhaustive.solve unlabelled_menu "R1"
           exhaustive_exact HNaN).
Defined.

Lemma sum_by_le_pointwise {A : Type} (f g : A -> Q) (l : list A) :
  Forall (fun a => f a <= g a)%Q l -> (sum_by f l <= sum_by g l)%Q.
Proof.
  induction 1 as [|a l Ha _ IH]; cbn [sum_by foldr]; [lra|].
  fold (sum_by f l) (sum_by g l). lra.
Qed.

Lemma sum_by_scale {A : Type} (k : Q) (f : A -> Q) (l : list A) :
  (sum_by (fun a => k * f a) l == k * sum_by f l)%Q.
Proof.
  induction l as [|a l IH]; cbn [sum_by foldr]; [ring|].
  fold (sum_by f l) (sum_by (fun a => k * f a)%Q l). rewrite IH. ring.
Qed.

(** X16. On a table priced by [calculate_selling_price] with no negative
    price, for a restaurant with a dish that sells for more than nothing,
    the result of an exact solver that reports [Optimal] is worth at least
    twice what the selection costs and at most four times the budget. *)
Theorem profit_between_twice_cost_and_four_budgets (solve : LpProblem -> LpSolution)
    (raw df : list MenuRow) (restaurant_id : string) (max_budget : Q)
    (selected_items : list SelectedItem) (objective : option Q) :
  calculate_selling_price raw = Ret df ->
  Forall (fun row => 0 <= Price row)%Q df ->
  has_selling_price (restaurant_rows df restaurant_id) ->
  exact solve ->
  feasible_result solve df restaurant_id max_budget ->
  run solve (optimize_menu df restaurant_id max_budget)
    = Returned (selected_items, objective) ->
  exists q, objective = Some q
            /\ (2 * sum_by sel_Price selected_items <= q)%Q
            /\ (q <= 4 * max_budget)%Q.
Proof.
  intros Hpriced Hprices Hsome Hexact Hfeas Hrun.
  apply returned_inv in Hrun as [-> ->].
  rewrite objective_value_terms by done.
  apply feasible_result_optimal in Hfeas as [Hfeas _]; [|done].
  set (rows := restaurant_rows df restaurant_id) in *.
  set (vals := (solve (menu_problem restaurant_id rows max_budget)).2) in *.
  destruct (feasible_objective restaurant_id rows max_budget vals Hfeas)
    as (q & Hq & Hsum).
  pose proof (feasible_budget restaurant_id rows max_budget vals Hfeas) as Hbudget.
  exists q. split; [done|].
  rewrite sum_by_map. cbn [selected_item sel_Price].
  assert (Forall (fun row => 2 * Price row <= SellingPrice row
                             /\ SellingPrice row <= 4 * Price row)%Q
                 (chosen vals rows)) as Hbounds.
  { apply calculate_selling_price_ret in Hpriced as (_ & Hknown & ->).
    apply Forall_forall. intros row Hrow.
    apply list_elem_of_filter in Hrow as [_ Hrow].
    apply list_elem_of_filter in Hrow as [_ Hrow].
    rewrite Forall_forall in Hprices. specialize (Hprices row Hrow).
    apply list_elem_of_fmap in Hrow as (x & -> & Hx).
    rewrite Forall_forall in Hknown.
    exact (reprice_bounds x (Hknown x Hx) Hprices). }
  pose proof (sum_by_le_pointwise (fun row => 2 * Price row)%Q SellingPrice
                (chosen vals rows)) as Hlow.
  pose proof (sum_by_le_pointwise SellingPrice (fun row => 4 * Price row)%Q
                (chosen vals rows)) as Hhigh.
  rewrite sum_by_scale in Hlow, Hhigh.
  split.
  - rewrite Hsum. apply Hlow. eapply Forall_impl; [exact Hbounds|]. by intros ? [? ?].
  - rewrite Hsum.
    apply Qle_trans with (4 * sum_by Price (chosen vals rows))%Q; [|lra].
    apply Hhigh. eapply Forall_impl; [exact Hbounds|]. by intros ? [? ?].
Qed.

Lemma profit_between_twice_cost_and_four_budgets_witness :
  exists selected_items objective,
    run exhaustive.solve (optimize_menu scenario_items "R" 35)
      = Returned (selected_items, objective)
    /\ exists q, objective = Some q
                 /\ (2 * sum_by sel_Price selected_items <= q)%Q
                 /\ (q <= 4 * 35)%Q.
Proof.
  eexists _, _. split; [evaluate|].
  eapply (profit_between_twice_cost_and_four_budgets exhaustive.solve scenario_raw
            scenario_items "R" 35).
  - evaluate.
  - repeat (apply Forall_cons; split; [discriminate|]). apply Forall_nil_2.
  - apply Exists_cons_hd. by vm_compute.
  - apply exhaustive_exact.
  - evaluate.
  - evaluate.
Defined.

(** ** From the sheet to the optimum *)

Lemma restaurant_rows_reprice (df : list MenuRow) (restaurant_id : string) :
  restaurant_rows (map reprice df) restaurant_id
  = map reprice (restaurant_rows df restaurant_id).
Proof.
  unfold restaurant_rows. induction df as [|x df IH]; [done|].
  cbn [map]. rewrite !filter_cons. cbn [reprice RestaurantID].
  destruct (decide (RestaurantID x = restaurant_id)); cbn [map]; by rewrite IH.
Qed.

Lemma MenuItem_reprice (df : list MenuRow) :
  map MenuItem (map reprice df) = map MenuItem df.
Proof. rewrite map_map. by apply map_ext. Qed.

(** X17. The pipeline of [main] needs no assumption on the sheet's
    duplicates: on the table that [load_and_preprocess_data] and
    [calculate_selling_price] produce from any sheet, for a restaurant with
    a dish that sells for more than nothing, the result of an exact solver
    that reports [Optimal] is worth at least as much as every set of the
    restaurant's rows that meets the budget and has
    [min_items_per_category] rows of each category. *)
Theorem pipeline_optimal (read_excel : string -> list MenuRow)
    (solve : LpProblem -> LpSolution) (df : list MenuRow)
    (restaurant_id : string) (max_budget : Q)
    (selected_items : list SelectedItem) (objective : option Q)
    (sub : list MenuRow) :
  calculate_selling_price (load_and_preprocess_data read_excel) = Ret df ->
  has_selling_price (restaurant_rows df restaurant_id) ->
  exact solve ->
  feasible_result solve df restaurant_id max_budget ->
  run solve (optimize_menu df restaurant_id max_budget)
    = Returned (selected_items, objective) ->
  sub ⊆+ restaurant_rows df restaurant_id ->
  within_budget max_budget sub ->
  covers_categories (restaurant_rows df restaurant_id) sub ->
  exists q, objective = Some q /\ (sum_by SellingPrice sub <= q)%Q.
Proof.
  intros Hpriced Hsome Hexact Hfeas Hrun Hsub Hbudget Hcover.
  apply returned_inv in Hrun as [_ ->].
  rewrite objective_value_terms by done.
  apply feasible_result_optimal in Hfeas; [|done].
  apply (optimal_dominates restaurant_id _ sub max_budget); try done.
  apply calculate_selling_price_ret in Hpriced as (_ & _ & ->).
  rewrite restaurant_rows_reprice, MenuItem_reprice.
  apply restaurant_rows_NoDup, drop_duplicates_from_NoDup.
Qed.

Lemma pipeline_optimal_witness :
  exists df selected_items objective,
    calculate_selling_price (load_and_preprocess_data sample_disk) = Ret df
    /\ run exhaustive.solve (optimize_menu df "R1" 30)
       = Returned (selected_items, objective)
    /\ exists q, objective = Some q /\
         (sum_by SellingPrice
            [ mkRow "R1" "Olives" (Label "Appetizer") 5 "Low" 10;
              mkRow "R1" "Risotto" (Label "Entree") 20 "Medium" 60 ] <= q)%Q.
Proof.
  eexists _, _, _. split; [evaluate|]. split; [evaluate|].
  eapply (pipeline_optimal sample_disk exhaustive.solve _ "R1" 30).
  - evaluate.
  - apply Exists_cons_hd. by vm_compute.
  - apply exhaustive_exact.
  - evaluate.
  - evaluate.
  - vm_compute. apply submseteq_cons, submseteq_swap.
  - unfold within_budget. apply Qle_bool_iff. evaluate.
  - intros c Hc. vm_compute in Hc.
    repeat (apply elem_of_cons in Hc as [->|Hc]); [vm_compute; discriminate ..|].
    by apply elem_of_nil in Hc.
Defined.

(** ** The dashboard *)

Lemma length_unique (l : list category) : (length (unique l) <= length l)%nat.
Proof.
  induction l as [|c l IH]; simpl; [lia|].
  pose proof (length_filter (fun d => d <> c) (unique l)). lia.
Qed.

Lemma NoDup_unique (l : list category) : NoDup (unique l).
Proof.
  induction l as [|c l IH]; simpl; [constructor|].
  apply NoDup_cons. split; [|by apply NoDup_filter].
  rewrite list_elem_of_filter. tauto.
Qed.

Lemma elem_of_unique_ids (x : string) (l : list string) : x ∈ unique_ids l <-> x ∈ l.
Proof.
  induction l as [|y l IH]; simpl; [done|].
  rewrite !elem_of_cons, list_elem_of_filter, IH.
  destruct (decide (x = y)); tauto.
Qed.

Lemma NoDup_unique_ids (l : list string) : NoDup (unique_ids l).
Proof.
  induction l as [|y l IH]; simpl; [constructor|].
  apply NoDup_cons. split; [|by apply NoDup_filter].
  rewrite list_elem_of_filter. tauto.
Qed.

Lemma category_constraints_length (restaurant_id : string) (rows : list MenuRow)
    (max_budget : Q) :
  length (p_constraints (menu_problem restaurant_id rows max_budget))
  = S (length (unique (map MenuCategory rows))).
Proof. cbn [menu_problem p_constraints length]. by rewrite length_map. Qed.

(** X18. The statistics panel. [display_restaurant_stats] draws the number
    of rows of the restaurant, their average price and the number of
    distinct categories.  There are never more categories than rows; a
    restaurant without rows shows 0, [nan] and 0; otherwise the average
    times the number of rows is the total price; and the category count
    is the number of category constraints of the problem that
    [optimize_menu] submits for the same table and restaurant. *)
Theorem display_restaurant_stats_counts (df : list MenuRow) (restaurant_id : string) :
  exists n average k,
    display_restaurant_stats df restaurant_id
    = [ st_subheader "Restaurant Statistics"; st_columns 4;
        st_metric "Total Menu Items" n;
        st_metric_dollars "Average Price" average;
        st_metric "Menu Categories" k ]
    /\ n = length (restaurant_rows df restaurant_id)
    /\ (k <= n)%nat
    /\ (n = 0%nat -> average = DollarsNaN /\ k = 0%nat)
    /\ (n <> 0%nat ->
        exists x, average = Dollars x
                  /\ (x * inject_Z (Z.of_nat n)
                      == sum_by Price (restaurant_rows df restaurant_id))%Q)
    /\ (forall solve max_budget p,
          p ∈ submitted solve (optimize_menu df restaurant_id max_budget) ->
          length (p_constraints p) = S k).
Proof.
  unfold display_restaurant_stats.
  change (filter (fun row => RestaurantID row = restaurant_id) df)
    with (restaurant_rows df restaurant_id).
  set (rows := restaurant_rows df restaurant_id).
  eexists _, _, _. split; [reflexivity|]. split; [done|]. split.
  { pose proof (length_unique (map MenuCategory rows)) as H.
    by rewrite length_map in H. }
  split; [|split].
  - intros Hn. apply nil_length_inv in Hn. by rewrite Hn.
  - intros Hn. destruct rows as [|row rows'] eqn:E; [done|].
    rewrite <- E in *. unfold mean.
    replace (map Price rows) with (Price row :: map Price rows') by by rewrite E.
    eexists. split; [reflexivity|].
    replace (Price row :: map Price rows') with (map Price rows) by by rewrite E.
    rewrite length_map, sum_by_map. unfold id.
    rewrite Qmult_comm. apply Qmult_div_r. intros H.
    unfold Qeq in H. cbn [inject_Z Qnum Qden] in H. lia.
  - intros solve max_budget p Hp. rewrite optimize_menu_submitted in Hp.
    apply list_elem_of_singleton in Hp as ->. apply category_constraints_length.
Qed.

Lemma run_bind {A B : Type} (solve : LpProblem -> LpSolution) (m : prog A)
    (f : A -> prog B) :
  run solve (bind m f)
  = match run solve m with
    | Returned a => run solve (f a)
    | Raised e => Raised e
    end.
Proof. induction m as [a|e|p k IH]; simpl; [done|done|apply IH]. Qed.

Lemma submitted_bind {A B : Type} (solve : LpProblem -> LpSolution) (m : prog A)
    (f : A -> prog B) :
  submitted solve (bind m f)
  = (submitted solve m
     ++ match run solve m with
        | Returned a => submitted solve (f a)
        | Raised e => []
        end)%list.
Proof.
  induction m as [a|e|p k IH]; simpl; [done|done|]. by rewrite IH.
Qed.

#[global] Instance string_le_total : Total string_le.
Proof. intros a b. apply String.leb_total. Qed.

(** The options of the select box are the restaurants that have rows. *)
Lemma elem_of_options (df : list MenuRow) (restaurant_id : string) :
  restaurant_id ∈ sorted (unique_ids (map RestaurantID df))
  <-> restaurant_rows df restaurant_id <> [].
Proof.
  unfold sorted. rewrite merge_sort_Permutation, elem_of_unique_ids, list_elem_of_fmap.
  split.
  - intros (row & -> & Hrow) Hnil.
    assert (row ∈ restaurant_rows df (RestaurantID row)) as Hin
      by by apply list_elem_of_filter.
    rewrite Hnil in Hin. by apply elem_of_nil in Hin.
  - intros Hne. destruct (restaurant_rows df restaurant_id) as [|row rows] eqn:E; [done|].
    assert (row ∈ restaurant_rows df restaurant_id) as Hin by (rewrite E; left).
    apply list_elem_of_filter in Hin as [Hid Hin]. by exists row.
Qed.

(** X19. The select box of [main] offers each restaurant of the table
    once, in increasing order of identifier, and offers exactly the
    restaurants that have at least one row; so a value picked from it
    never leads [optimize_menu] to an empty set of rows. *)
Theorem main_restaurant_options (read_excel : string -> list MenuRow)
    (solve : LpProblem -> LpSolution) (df : list MenuRow)
    (selectbox : string) (slider : Z) :
  calculate_selling_price (load_and_preprocess_data read_excel) = Ret df ->
  exists options rest,
    run solve (main read_excel selectbox slider false)
    = Returned (inr (st_title "Restaurant-Specific Menu Optimization"
                     :: st_sidebar_header "Restaurant Selection"
                     :: st_sidebar_selectbox "Select Restaurant" options
                          (map (fun x => "Restaurant " +:+ x) options)
                     :: rest))
    /\ Sorted string_le options
    /\ NoDup options
    /\ forall restaurant_id,
         restaurant_id ∈ options <-> restaurant_rows df restaurant_id <> [].
Proof.
  intros Hpriced. unfold main. rewrite Hpriced. cbn [bind run].
  eexists _, _. split; [reflexivity|]. split; [|split].
  - apply Sorted_merge_sort, _.
  - unfold sorted. rewrite merge_sort_Permutation. apply NoDup_unique_ids.
  - intros restaurant_id. apply elem_of_options.
Qed.

Lemma main_restaurant_options_witness :
  exists options rest,
    run exhaustive.solve (main sample_disk "R1" 200 false)
    = Returned (inr (st_title "Restaurant-Specific Menu Optimization"
                     :: st_sidebar_header "Restaurant Selection"
                     :: st_sidebar_selectbox "Select Restaurant" options
                          (map (fun x => "Restaurant " +:+ x) options)
                     :: rest))
    /\ Sorted string_le options
    /\ NoDup options
    /\ forall restaurant_id,
         restaurant_id ∈ options
         <-> restaurant_rows
               [ mkRow "R1" "Bruschetta" (Label "Appetizer") 10 "High" 40;
                 mkRow "R2" "Bruschetta" (Label "Starter") 9 "Low" 18;
                 mkRow "R1" "Risotto" (Label "Entree") 20 "Medium" 60;
                 mkRow "R1" "Olives" (Label "Appetizer") 5 "Low" 10 ]
               restaurant_id <> [].
Proof.
  apply (main_restaurant_options sample_disk exhaustive.solve).
  evaluate.
Defined.

(** X20. An unknown tier stops the dashboard before anything is solved:
    if a row of the deduplicated sheet has a [Profitability] other than
    Low, Medium or High, [main] raises [KeyError], clicked or not, and no
    problem reaches the solver. *)
Theorem main_unknown_tier (read_excel : string -> list MenuRow)
    (solve : LpProblem -> LpSolution) (selectbox : string) (slider : Z)
    (button : bool) (x : MenuRow) :
  x ∈ load_and_preprocess_data read_excel ->
  Profitability x ∉ ["Low"; "Medium"; "High"] ->
  (exists key, run solve (main read_excel selectbox slider button)
               = Raised (KeyError key)
               /\ key ∉ ["Low"; "Medium"; "High"])
  /\ submitted solve (main read_excel selectbox slider button) = [].
Proof.
  intros Hx Htier.
  destruct (calculate_selling_price_cases (load_and_preprocess_data read_excel))
    as [[Hnil _]|[(_ & Hknown & _)|(pre & post & y & _ & _ & Hy & Hraise)]].
  - rewrite Hnil in Hx. by apply elem_of_nil in Hx.
  - exfalso. apply Htier, known_tier_iff.
    rewrite Forall_forall in Hknown. by apply Hknown.
  - unfold main. rewrite Hraise. cbn [bind run submitted]. split; [|done].
    exists (Profitability y). split; [done|]. by rewrite <- known_tier_iff.
Qed.

Lemma main_unknown_tier_witness :
  (exists key, run exhaustive.solve (main premium_disk "R1" 200 true)
               = Raised (KeyError key)
               /\ key ∉ ["Low"; "Medium"; "High"])
  /\ submitted exhaustive.solve (main premium_disk "R1" 200 true) = [].
Proof.
  apply (main_unknown_tier premium_disk exhaustive.solve "R1" 200 true
           (mkRow "R1" "Truffle" (Label "Entree") 90 "Premium" 0)).
  - vm_compute. right. left.
  - compute_done.
Defined.

(** X21. [main] calls the solver only on a click, and then once: without
    a click nothing is submitted; with a click exactly one problem is
    submitted, the one built from the deduplicated and priced table, the
    select-box value and the slider value as budget. *)
Theorem main_solves_on_click (read_excel : string -> list MenuRow)
    (solve : LpProblem -> LpSolution) (df : list MenuRow)
    (selectbox : string) (slider : Z) (button : bool) :
  calculate_selling_price (load_and_preprocess_data read_excel) = Ret df ->
  submitted solve (main read_excel selectbox slider button)
  = if button
    then [menu_problem selectbox (restaurant_rows df selectbox) (inject_Z slider)]
    else [].
Proof.
  intros Hpriced. unfold main. rewrite Hpriced. cbn [bind].
  destruct button; [|done].
  rewrite submitted_bind, optimize_menu_submitted, optimize_menu_run.
  cbn [fst snd]. by repeat case_match.
Qed.

Lemma main_solves_on_click_witness :
  submitted exhaustive.solve (main sample_disk "R1" 30 true)
  = [menu_problem "R1"
       (restaurant_rows
          [ mkRow "R1" "Bruschetta" (Label "Appetizer") 10 "High" 40;
            mkRow "R2" "Bruschetta" (Label "Starter") 9 "Low" 18;
            mkRow "R1" "Risotto" (Label "Entree") 20 "Medium" 60;
            mkRow "R1" "Olives" (Label "Appetizer") 5 "Low" 10 ] "R1")
       (inject_Z 30)].
Proof.
  apply (main_solves_on_click sample_disk exhaustive.solve _ "R1" 30 true).
  evaluate.
Defined.



Lemma value_counts_elem (column : list string) (x : string) :
  x ∈ column <-> exists n, value_counts column !! x = Some (S n).
Proof.
  induction column as [|y column IH]; cbn [value_counts foldr].
  - split; [by intros H%elem_of_nil|]. intros (n & Hn). by rewrite lookup_empty in Hn.
  - fold (value_counts column). rewrite elem_of_cons.
    destruct (decide (y = x)) as [->|Hne].
    + rewrite lookup_insert_eq. split; [eauto|]. by left.
    + rewrite lookup_insert_ne by done. rewrite IH. split; [|tauto].
      intros [->|H]; done.
Qed.

(** The screen that [main] has drawn when the click is handled. *)
Lemma main_click_run (read_excel : string -> list MenuRow)
    (solve : LpProblem -> LpSolution) (df : list MenuRow)
    (selectbox : string) (slider : Z) :
  calculate_selling_price (load_and_preprocess_data read_excel) = Ret df ->
  exists screen,
    run solve (main read_excel selectbox slider true)
    = match run solve (optimize_menu df selectbox (inject_Z slider)) with
      | Returned ([], _) =>
          Returned (inr (screen ++
            [ st_subheader "Optimized Menu Selection";
              st_error "No feasible solution found with the given constraints!" ])%list)
      | Returned (_ :: _, None) => Returned (inl TypeError)
      | Returned (items, Some profit) =>
          Returned (inr (screen ++
            [ st_subheader "Optimized Menu Selection";
              st_dataframe_items items;
              st_columns 3;
              st_metric "Selected Items" (length items);
              st_metric_dollars "Total Cost" (Dollars (sum_by sel_Price items));
              st_metric_dollars "Expected Profit" (Dollars profit);
              st_subheader "Optimized Category Distribution";
              st_bar_chart (value_counts (omap category_label items));
              st_subheader "Profitability Distribution";
              st_bar_chart (value_counts (map sel_Profitability items)) ])%list)
      | Raised e => Raised e
      end.
Proof.
  intros Hpriced.
  exists ([ st_title "Restaurant-Specific Menu Optimization";
            st_sidebar_header "Restaurant Selection";
            st_sidebar_selectbox "Select Restaurant"
              (sorted (unique_ids (map RestaurantID df)))
              (map (fun x => "Restaurant " +:+ x)
                   (sorted (unique_ids (map RestaurantID df))));
            st_sidebar_header "Budget Parameter";
            st_sidebar_slider "Maximum Budget ($)" 50 300 200 10 ]
            ++ display_restaurant_stats df selectbox
            ++ [ st_subheader ("Current Menu Items for " +:+ selectbox);
                 st_dataframe (restaurant_rows df selectbox);
                 st_button "Optimize Menu" ])%list.
  unfold main. rewrite Hpriced. cbn [bind]. rewrite run_bind.
  destruct (run solve (optimize_menu df selectbox (inject_Z slider)))
    as [[[|item items] [profit|]]|e]; cbn [fst snd run];
    rewrite <- ?app_assoc; reflexivity.
Qed.

(** X23. A click for a restaurant picked among the options that has a
    dish selling for more than nothing, with an exact solver that reports
    [Optimal], draws the result panel and not the error: at least one item
    is listed, "Total Cost" is the cost of the listed items and is within
    the slider value, "Expected Profit" is the sum of their selling prices,
    there are at least as many items as the restaurant has categories, and
    the category chart has a bar for each of them. *)
Theorem main_click_feasible (read_excel : string -> list MenuRow)
    (solve : LpProblem -> LpSolution) (df : list MenuRow)
    (selectbox : string) (slider : Z) :
  calculate_selling_price (load_and_preprocess_data read_excel) = Ret df ->
  exact solve ->
  selectbox ∈ sorted (unique_ids (map RestaurantID df)) ->
  has_selling_price (restaurant_rows df selectbox) ->
  feasible_result solve df selectbox (inject_Z slider) ->
  exists screen items profit,
    run solve (main read_excel selectbox slider true)
    = Returned (inr (screen ++
        [ st_subheader "Optimized Menu Selection";
          st_dataframe_items items;
          st_columns 3;
          st_metric "Selected Items" (length items);
          st_metric_dollars "Total Cost" (Dollars (sum_by sel_Price items));
          st_metric_dollars "Expected Profit" (Dollars profit);
          st_subheader "Optimized Category Distribution";
          st_bar_chart (value_counts (omap category_label items));
          st_subheader "Profitability Distribution";
          st_bar_chart (value_counts (map sel_Profitability items)) ])%list)
    /\ items <> []
    /\ (sum_by sel_Price items <= inject_Z slider)%Q
    /\ (profit == sum_by sel_SellingPrice items)%Q
    /\ (length (unique (map MenuCategory (restaurant_rows df selectbox)))
        <= length items)%nat
    /\ forall s, Label s ∈ map MenuCategory (restaurant_rows df selectbox) ->
                 exists n, value_counts (omap category_label items) !! s = Some (S n).
Proof.
  intros Hpriced Hexact Hpicked Hsome Hfeas.
  destruct (main_click_run read_excel solve df selectbox slider Hpriced)
    as (screen & Hmain).
  pose proof (optimize_menu_run solve df selectbox (inject_Z slider)) as Hrun.
  cbn zeta in Hrun.
  set (rows := restaurant_rows df selectbox) in *.
  set (vals := (solve (menu_problem selectbox rows (inject_Z slider))).2) in *.
  apply feasible_result_optimal in Hfeas as [Hfeas _]; [|done].
  fold rows vals in Hfeas.
  pose proof (feasible_chosen_nonempty selectbox rows (inject_Z slider) vals Hfeas
                (proj1 (elem_of_options df selectbox) Hpicked)) as Hnonempty.
  destruct (feasible_selection_objective selectbox rows (inject_Z slider) vals
              Hfeas Hsome) as (q & Hq & Hsum).
  pose proof (feasible_selection_budget selectbox rows (inject_Z slider) vals Hfeas)
    as Hbudget.
  assert (forall c, c ∈ map MenuCategory rows ->
                    c ∈ map sel_Category (map selected_item (chosen vals rows)))
    as Hcats.
  { intros c Hc.
    pose proof (feasible_category selectbox rows (inject_Z slider) vals c Hfeas Hc)
      as Hmin.
    destruct (in_category c (chosen vals rows)) as [|row others] eqn:E.
    { unfold min_items_per_category in Hmin. simpl in Hmin. lia. }
    assert (row ∈ in_category c (chosen vals rows)) as Hrow by (rewrite E; left).
    apply list_elem_of_filter in Hrow as [Hcat Hrow]. apply py_eq_true in Hcat.
    rewrite map_map. apply list_elem_of_fmap. by exists row. }
  rewrite Hrun, Hq in Hmain.
  exists screen, (map selected_item (chosen vals rows)), q.
  split; [|split; [done|split; [done|split; [done|split]]]].
  - by destruct (map selected_item (chosen vals rows)).
  - rewrite <- (length_map sel_Category).
    apply submseteq_length, NoDup_submseteq; [apply NoDup_unique|].
    intros c Hc. apply Hcats. by apply elem_of_unique.
  - intros s Hs. apply value_counts_elem.
    apply Hcats in Hs. apply list_elem_of_fmap in Hs as (item & Hitem & Hin).
    apply list_elem_of_omap. exists item. split; [done|].
    unfold category_label. by rewrite <- Hitem.
Qed.

Lemma main_click_feasible_witness :
  exists screen items profit,
    run exhaustive.solve (main sample_disk "R1" 30 true)
    = Returned (inr (screen ++
        [ st_subheader "Optimized Menu Selection";
          st_dataframe_items items;
          st_columns 3;
          st_metric "Selected Items" (length items);
          st_metric_dollars "Total Cost" (Dollars (sum_by sel_Price items));
          st_metric_dollars "Expected Profit" (Dollars profit);
          st_subheader "Optimized Category Distribution";
          st_bar_chart (value_counts (omap category_label items));
          st_subheader "Profitability Distribution";
          st_bar_chart (value_counts (map sel_Profitability items)) ])%list)
    /\ items <> []
    /\ (sum_by sel_Price items <= inject_Z 30)%Q
    /\ (profit == sum_by sel_SellingPrice items)%Q
    /\ (length (unique (map MenuCategory
          (restaurant_rows
             [ mkRow "R1" "Bruschetta" (Label "Appetizer") 10 "High" 40;
               mkRow "R2" "Bruschetta" (Label "Starter") 9 "Low" 18;
               mkRow "R1" "Risotto" (Label "Entree") 20 "Medium" 60;
               mkRow "R1" "Olives" (Label "Appetizer") 5 "Low" 10 ] "R1")))
        <= length items)%nat
    /\ forall s,
         Label s ∈ map MenuCategory
           (restaurant_rows
              [ mkRow "R1" "Bruschetta" (Label "Appetizer") 10 "High" 40;
                mkRow "R2" "Bruschetta" (Label "Starter") 9 "Low" 18;
                mkRow "R1" "Risotto" (Label "Entree") 20 "Medium" 60;
                mkRow "R1" "Olives" (Label "Appetizer") 5 "Low" 10 ] "R1") ->
         exists n, value_counts (omap category_label items) !! s = Some (S n).
Proof.
  apply (main_click_feasible sample_disk exhaustive.solve).
  - evaluate.
  - apply exhaustive_exact.
  - compute_done.
  - apply Exists_cons_hd. by vm_compute.
  - evaluate.
Defined.



(** ** When the program has a solution *)

(** X25. When the integer program of a call has a solution and the
    solver is exact and decisive, the prices of the returned items sum to
    at most the budget. *)
Theorem solvable_within_budget (solve : LpProblem -> LpSolution) (df : list MenuRow)
    (restaurant_id : string) (max_budget : Q) (vals : gmap string Q)
    (selected_items : list SelectedItem) (objective : option Q) :
  exact solve ->
  decisive solve ->
  feasible (menu_problem restaurant_id (restaurant_rows df restaurant_id) max_budget)
           vals ->
  run solve (optimize_menu df restaurant_id max_budget)
    = Returned (selected_items, objective) ->
  (sum_by sel_Price selected_items <= max_budget)%Q.
Proof.
  intros Hexact Hdec Hvals Hrun.
  apply returned_inv in Hrun as [-> _].
  destruct (solvable_optimal solve _ vals Hexact Hdec Hvals) as [Hfeas _].
  by apply (feasible_selection_budget restaurant_id).
Qed.

Lemma solvable_within_budget_witness :
  exists selected_items objective,
    run exhaustive.solve (optimize_menu sample_menu "R1" 30)
      = Returned (selected_items, objective) /\
    (sum_by sel_Price selected_items <= 30)%Q.
Proof.
  eexists _, _. split; [evaluate|].
  eapply (solvable_within_budget exhaustive.solve sample_menu "R1" 30
            (exhaustive.solve (menu_problem "R1" (restaurant_rows sample_menu "R1") 30)).2).
  - apply exhaustive_exact.
  - apply exhaustive_decisive.
  - apply exhaustive_exact. evaluate.
  - evaluate.
Defined.

(** X26. When the integer program of a call has a solution and the
    solver is exact and decisive, every category present among the rows of
    the restaurant is borne by at least [min_items_per_category] of the
    returned items. *)
Theorem solvable_covers_categories (solve : LpProblem -> LpSolution)
    (df : list MenuRow) (restaurant_id : string) (max_budget : Q)
    (vals : gmap string Q)
    (selected_items : list SelectedItem) (objective : option Q) (c : category) :
  exact solve ->
  decisive solve ->
  feasible (menu_problem restaurant_id (restaurant_rows df restaurant_id) max_budget)
           vals ->
  run solve (optimize_menu df restaurant_id max_budget)
    = Returned (selected_items, objective) ->
  c ∈ map MenuCategory (restaurant_rows df restaurant_id) ->
  (min_items_per_category <= Z.of_nat (count_category c selected_items))%Z.
Proof.
  intros Hexact Hdec Hvals Hrun Hc.
  apply returned_inv in Hrun as [-> _].
  destruct (solvable_optimal solve _ vals Hexact Hdec Hvals) as [Hfeas _].
  by apply (feasible_selection_category restaurant_id _ max_budget).
Qed.

Lemma solvable_covers_categories_witness :
  exists selected_items objective,
    run exhaustive.solve (optimize_menu sample_menu "R1" 30)
      = Returned (selected_items, objective) /\
    (min_items_per_category
       <= Z.of_nat (count_category (Label "Entree") selected_items))%Z.
Proof.
  eexists _, _. split; [evaluate|].
  eapply (solvable_covers_categories exhaustive.solve sample_menu "R1" 30
            (exhaustive.solve (menu_problem "R1" (restaurant_rows sample_menu "R1") 30)).2).
  - apply exhaustive_exact.
  - apply exhaustive_decisive.
  - apply exhaustive_exact. evaluate.
  - evaluate.
  - vm_compute. do 2 right. left.
Defined.

(** X27. When the integer program of a call has a solution, the solver
    is exact and decisive and some dish of the restaurant sells for more
    than nothing, the returned objective is a number and equals the sum of
    the selling prices of the returned items. *)
Theorem solvable_objective (solve : LpProblem -> LpSolution) (df : list MenuRow)
    (restaurant_id : string) (max_budget : Q) (vals : gmap string Q)
    (selected_items : list SelectedItem) (objective : option Q) :
  exact solve ->
  decisive solve ->
  feasible (menu_problem restaurant_id (restaurant_rows df restaurant_id) max_budget)
           vals ->
  has_selling_price (restaurant_rows df restaurant_id) ->
  run solve (optimize_menu df restaurant_id max_budget)
    = Returned (selected_items, objective) ->
  exists q, objective = Some q /\ (q == sum_by sel_SellingPrice selected_items)%Q.
Proof.
  intros Hexact Hdec Hvals Hsome Hrun.
  apply returned_inv in Hrun as [-> ->].
  destruct (solvable_optimal solve _ vals Hexact Hdec Hvals) as [Hfeas _].
  by apply (feasible_selection_objective restaurant_id _ max_budget).
Qed.

Lemma solvable_objective_witness :
  exists selected_items objective,
    run exhaustive.solve (optimize_menu sample_menu "R1" 30)
      = Returned (selected_items, objective) /\
    exists q, objective = Some q /\ (q == sum_by sel_SellingPrice selected_items)%Q.
Proof.
  eexists _, _. split; [evaluate|].
  eapply (solvable_objective exhaustive.solve sample_menu "R1" 30
            (exhaustive.solve (menu_problem "R1" (restaurant_rows sample_menu "R1") 30)).2).
  - apply exhaustive_exact.
  - apply exhaustive_decisive.
  - apply exhaustive_exact. evaluate.
  - apply Exists_cons_hd. by vm_compute.
  - evaluate.
Defined.
